(** * Club management business logic: shallow embedding of [business_logic.py]

    The Python class [ClubManagementSystem] is embedded as functions in a
    state-and-exception monad over a [World] that holds the three document
    collections of the store ([db.users], [db.clubs], [db.events]), the
    standard output (where a failed publish is logged) and the messages the
    notification channel delivered.

    What the module takes from other packages (bcrypt, jwt,
    [datetime.strptime], the rendering of a dict by [str], the object ids of
    the store) is an interface, the class [Runtime].  The module calls
    [ObjectId] and never imports it: what that name is bound to when a
    method runs is the class [Globals], and [as_shipped] is the module as
    the file leaves it, where the name is unbound.  [Runtime] is
    instantiated further down to run the operations on a concrete store. *)

From Stdlib Require Import List String Ascii ZArith Bool Lia.
Import ListNotations.
Local Open Scope string_scope.
Local Open Scope Z_scope.

Set Implicit Arguments.

(** ** Enumerations *)

Module UserRole.
Inductive t := STUDENT | FACULTY | ADMIN.
Definition value (r : t) : string :=
  match r with
  | STUDENT => "student"
  | FACULTY => "faculty"
  | ADMIN => "admin"
  end.
End UserRole.

Module MembershipStatus.
Inductive t := PENDING | ACTIVE | REJECTED.
Definition value (s : t) : string :=
  match s with
  | PENDING => "pending"
  | ACTIVE => "active"
  | REJECTED => "rejected"
  end.
End MembershipStatus.

Module EventStatus.
Inductive t := DRAFT | PENDING | APPROVED | REJECTED | CANCELLED.
Definition value (s : t) : string :=
  match s with
  | DRAFT => "draft"
  | PENDING => "pending"
  | APPROVED => "approved"
  | REJECTED => "rejected"
  | CANCELLED => "cancelled"
  end.
End EventStatus.

(** ** Documents of the store

    Every document is a Python dict; the records below list the keys the
    code writes when it creates the document.  [oid] is the type of bson
    object ids.  A key that the code adds later ([clubs] on a user,
    [approvedBy] and [approvalNotes] on an event) is an empty list or
    [None] until then. *)

Module ClubRef.
Record t : Type := mk { clubId : string; role : string }.
End ClubRef.

Module User.
Record t {oid : Type} : Type := mk {
  _id : oid;
  name : string;
  email : string;
  password : string;
  role : string;
  isActive : bool;
  createdAt : Z;
  studentId : option string;
  year : option string;
  department : string;
  clubs : list ClubRef.t
}.
Arguments t : clear implicits.

(** [{"$push": {"clubs": ref}}] *)
Definition push_clubs {oid} (ref : ClubRef.t) (u : t oid) : t oid :=
  mk (_id u) (name u) (email u) (password u) (role u) (isActive u)
     (createdAt u) (studentId u) (year u) (department u) (clubs u ++ [ref]).
End User.

Module Membership.
Record t {oid : Type} : Type := mk {
  userId : oid;
  role : string;
  status : string;
  joinedAt : Z
}.
Arguments t : clear implicits.

(** [member['status'] = v] *)
Definition set_status {oid} (v : string) (m : t oid) : t oid :=
  mk (userId m) (role m) v (joinedAt m).
End Membership.

Module Club.
Record t {oid : Type} : Type := mk {
  _id : oid;
  name : string;
  description : string;
  category : string;
  mission : string;
  vision : string;
  facultyCoordinator : oid;
  establishedDate : Z;
  isActive : bool;
  members : list (Membership.t oid);
  events : list oid;
  createdAt : Z
}.
Arguments t : clear implicits.

Definition set_members {oid} (ms : list (Membership.t oid)) (c : t oid) : t oid :=
  mk (_id c) (name c) (description c) (category c) (mission c) (vision c)
     (facultyCoordinator c) (establishedDate c) (isActive c) ms (events c)
     (createdAt c).

(** [{"$push": {"members": m}}] *)
Definition push_members {oid} (m : Membership.t oid) (c : t oid) : t oid :=
  set_members (members c ++ [m]) c.

(** [{"$push": {"events": e}}] *)
Definition push_events {oid} (e : oid) (c : t oid) : t oid :=
  mk (_id c) (name c) (description c) (category c) (mission c) (vision c)
     (facultyCoordinator c) (establishedDate c) (isActive c) (members c)
     (events c ++ [e]) (createdAt c).
End Club.

Module Registration.
Record t {oid : Type} : Type := mk {
  userId : oid;
  registeredAt : Z
}.
Arguments t : clear implicits.
End Registration.

Module Budget.
Record t : Type := mk { requested : Z; approved : Z }.
End Budget.

Module Event.
Record t {oid : Type} : Type := mk {
  _id : oid;
  title : string;
  description : string;
  clubId : oid;
  organizer : oid;
  eventType : string;
  venue : string;
  date : Z;
  startTime : string;
  endTime : string;
  maxParticipants : Z;
  budget : Budget.t;
  status : string;
  registeredParticipants : list (Registration.t oid);
  createdAt : Z;
  approvedBy : option oid;
  approvalNotes : option string
}.
Arguments t : clear implicits.

(** [{"$push": {"registeredParticipants": r}}] *)
Definition push_registeredParticipants {oid} (r : Registration.t oid)
    (e : t oid) : t oid :=
  mk (_id e) (title e) (description e) (clubId e) (organizer e)
     (eventType e) (venue e) (date e) (startTime e) (endTime e)
     (maxParticipants e) (budget e) (status e)
     (registeredParticipants e ++ [r]) (createdAt e) (approvedBy e)
     (approvalNotes e).

(** [{"$set": {"status": st, "approvedBy": by, "approvalNotes": notes,
               "budget.approved": amount}}] *)
Definition set_approval {oid} (st : string) (by_ : oid) (notes : string)
    (amount : Z) (e : t oid) : t oid :=
  mk (_id e) (title e) (description e) (clubId e) (organizer e)
     (eventType e) (venue e) (date e) (startTime e) (endTime e)
     (maxParticipants e) (Budget.mk (Budget.requested (budget e)) amount)
     st (registeredParticipants e) (createdAt e) (Some by_) (Some notes).

Definition set_status {oid} (st : string) (e : t oid) : t oid :=
  mk (_id e) (title e) (description e) (clubId e) (organizer e)
     (eventType e) (venue e) (date e) (startTime e) (endTime e)
     (maxParticipants e) (budget e) st (registeredParticipants e)
     (createdAt e) (approvedBy e) (approvalNotes e).
End Event.

(** ** Request dictionaries

    The [Dict] arguments of the operations; a key that may be absent is an
    [option]. *)

Module UserData.
Record t : Type := mk {
  name : option string;
  email : option string;
  password : option string;
  role : option string;
  studentId : option string;
  year : option string;
  department : option string
}.
End UserData.

Module ClubData.
Record t : Type := mk {
  name : option string;
  description : option string;
  category : option string;
  mission : option string;
  vision : option string;
  establishedDate : option Z
}.
End ClubData.

Module EventData.
Record t : Type := mk {
  title : option string;
  description : option string;
  clubId : option string;
  eventType : option string;
  venue : option string;
  date : option string;
  startTime : option string;
  endTime : option string;
  maxParticipants : option Z;
  budget : option Z
}.
End EventData.

Module ApproverData.
Record t : Type := mk {
  approvalNotes : option string;
  approvedBudget : option Z
}.
End ApproverData.

(** [d.get(key, default)] *)
Definition get {A} (field : option A) (default : A) : A :=
  match field with
  | Some v => v
  | None => default
  end.

(** ** Exceptions *)

Inductive exn : Type :=
| NameError (name : string)
| InvalidId (s : string)
| TypeError (msg : string)
| ValueError (msg : string)
| ConnectionError (msg : string).

(** [str(e)] *)
Definition exn_str (e : exn) : string :=
  match e with
  | NameError name => "name '" ++ name ++ "' is not defined"
  | InvalidId s =>
      "'" ++ s ++ "' is not a valid ObjectId, it must be a 12-byte input or a 24-character hex string"
  | TypeError msg => msg
  | ValueError msg => msg
  | ConnectionError msg => msg
  end.

Definition NoneType_not_subscriptable : exn :=
  TypeError "'NoneType' object is not subscriptable".

(** What evaluating an expression gives: a value, or an exception. *)
Inductive outcome (A : Type) : Type :=
| Return (a : A)
| Raise (e : exn).
Arguments Raise {A} e.

(** ** The imported functions *)

Module JwtPayload.
Record t : Type := mk { id : string; email : string; role : string; exp : Z }.
End JwtPayload.

Class Runtime (oid : Type) : Type := {
  (** equality of object ids, as the store compares them *)
  oid_eq_dec : forall a b : oid, {a = b} + {a <> b};
  (** bson's [ObjectId(s)], the class the name [ObjectId] stands for when
      the module binds it; [None] when bson raises [InvalidId] *)
  ObjectId : string -> option oid;
  (** [str(o)] for an object id [o] *)
  oid_str : oid -> string;
  (** [bcrypt.hashpw(password.encode('utf-8'), salt)]: the hash, or the
      exception bcrypt raises (from its version 5.0 on, [ValueError] for a
      password of more than 72 bytes) *)
  hashpw : string -> string -> outcome string;
  (** [jwt.encode(payload, secret, algorithm="HS256")] *)
  jwt_encode : JwtPayload.t -> string -> string;
  (** [datetime.strptime(s, "%Y-%m-%d")]: the date, or the [ValueError] it
      raises, whose message depends on what is wrong with [s] *)
  strptime : string -> outcome Z;
  (** [t.isoformat()] *)
  isoformat : Z -> string;
  (** [str(d)] for a dict [d] with string values *)
  dict_str : list (string * string) -> string
}.

(** ** The global names of the module

    The module imports bcrypt, jwt, datetime, typing, enum and uuid.  Ten
    of its methods call [ObjectId], a name the module neither imports nor
    defines.  Python looks a global name up when the call is evaluated, so
    in the module as it is every [ObjectId(...)] raises [NameError].
    [Globals] says whether the namespace of the module binds the name when
    a method runs -- to bson's class, for which the calls are written -- and
    [as_shipped] is the namespace the file itself creates. *)
Class Globals : Type := { bound_ObjectId : bool }.

Definition as_shipped : Globals := {| bound_ObjectId := false |}.

(** [self.redis]: [publish channel message] is [None] when the message is
    delivered and [Some e] when the client raises [e]. *)
Module Redis.
Record t : Type := mk { publish : string -> string -> option exn }.
End Redis.

(** [self] *)
Module Self.
Record t : Type := mk {
  redis : Redis.t;
  jwt_secret : string;
  token_expiry : Z
}.
End Self.

(** ** The world the operations act on *)

Module Db.
Record t {oid : Type} : Type := mk {
  users : list (User.t oid);
  clubs : list (Club.t oid);
  events : list (Event.t oid)
}.
Arguments t : clear implicits.
End Db.

Module World.
Record t {oid : Type} : Type := mk {
  db : Db.t oid;
  stdout : list string;
  delivered : list (string * string)
}.
Arguments t : clear implicits.
End World.

(** ** Values returned by the operations: [Tuple[bool, Dict]] *)

Module SanitizedUser.
Record t : Type := mk {
  _id : string;
  name : string;
  email : string;
  role : string;
  isActive : bool;
  createdAt : Z;
  studentId : option string;
  year : option string;
  department : string
}.
End SanitizedUser.

Inductive Dict {oid : Type} : Type :=
| ErrorDict (error : string)
| MessageDict (message : string)
| UserDict (message token : string) (user : SanitizedUser.t)
| ClubDict (message : string) (club_id : string) (club : Club.t oid)
| EventDict (message : string) (event_id : string) (event : Event.t oid).
Arguments Dict : clear implicits.

Definition Result (oid : Type) : Type := (bool * Dict oid)%type.

(** ** State and exceptions

    A computation runs in a world and either returns a value or raises; the
    writes made before an exception stay in the world, as they stay in the
    store when a Python method raises half-way. *)

Definition M (oid A : Type) : Type := World.t oid -> outcome A * World.t oid.

Section Monad.
Context {oid : Type}.

Definition ret {A} (a : A) : M oid A := fun w => (Return a, w).

Definition bind {A B} (c : M oid A) (k : A -> M oid B) : M oid B :=
  fun w =>
    match c w with
    | (Return a, w') => k a w'
    | (Raise e, w') => (Raise e, w')
    end.

Definition raise {A} (e : exn) : M oid A := fun w => (Raise e, w).

(** [try: body / except Exception as e: handler e] *)
Definition try_except {A} (body : M oid A) (handler : exn -> M oid A) : M oid A :=
  fun w =>
    match body w with
    | (Return a, w') => (Return a, w')
    | (Raise e, w') => handler e w'
    end.

Definition read {A} (f : Db.t oid -> A) : M oid A :=
  fun w => (Return (f (World.db w)), w).

Definition write (f : Db.t oid -> Db.t oid) : M oid unit :=
  fun w => (Return tt, World.mk (f (World.db w)) (World.stdout w) (World.delivered w)).

(** [print(line)] *)
Definition print (line : string) : M oid unit :=
  fun w => (Return tt, World.mk (World.db w) (World.stdout w ++ [line]) (World.delivered w)).

(** A call of an imported function: its value, or the exception it
    raises. *)
Definition call {A} (o : outcome A) : M oid A := fun w => (o, w).

(** [option] as a value that may be missing: [None] raises [e]. *)
Definition or_raise {A} (o : option A) (e : exn) : M oid A :=
  match o with
  | Some a => ret a
  | None => raise e
  end.

End Monad.

Declare Scope py_scope.
Delimit Scope py_scope with py.
Notation "x <- c ;; k" := (bind c (fun x => k))
  (at level 61, c at next level, right associativity) : py_scope.
Notation "c ;; k" := (bind c (fun _ => k))
  (at level 61, right associativity) : py_scope.
Local Open Scope py_scope.

(** ** Collections

    A collection is the list of its documents in insertion order.
    [find_one] returns the first document that matches, [update_one] and
    [replace_one] change the first document that matches and nothing when
    none does, [insert_one] appends. *)

Section Collections.
Context {D : Type}.

Definition find_one (query : D -> bool) (coll : list D) : option D :=
  List.find query coll.

Fixpoint update_one (query : D -> bool) (upd : D -> D) (coll : list D) : list D :=
  match coll with
  | [] => []
  | d :: rest =>
      if query d then upd d :: rest else d :: update_one query upd rest
  end.

Definition replace_one (query : D -> bool) (doc : D) (coll : list D) : list D :=
  update_one query (fun _ => doc) coll.

Definition insert_one (doc : D) (coll : list D) : list D := coll ++ [doc].

End Collections.

(** [x in xs] for strings *)
Definition str_in (x : string) (xs : list string) : bool :=
  existsb (String.eqb x) xs.

(** [s.replace(a, b)] for one-character [a] and [b] *)
Fixpoint replace (a b : ascii) (s : string) : string :=
  match s with
  | EmptyString => EmptyString
  | String c rest => String (if Ascii.eqb c a then b else c) (replace a b rest)
  end.

Definition single_quote : ascii := ascii_of_nat 39.
Definition double_quote : ascii := ascii_of_nat 34.

(** ** class ClubManagementSystem

    Each method takes, besides its Python arguments, what it draws from the
    environment during the call: [now] for [datetime.utcnow()] (one instant
    for all the readings of the clock in a call), [salt] for
    [bcrypt.gensalt()], and [inserted_id] for the id the store gives an
    inserted document. *)

Section ClubManagementSystem.
Context {oid : Type} {RT : Runtime oid} {NS : Globals}.

Definition oid_eqb (a b : oid) : bool :=
  if oid_eq_dec a b then true else false.

(** [ObjectId(s)] as a step of a method: the name is looked up first *)
Definition ObjectId_ (s : string) : M oid oid :=
  if bound_ObjectId then or_raise (ObjectId s) (InvalidId s)
  else raise (NameError "ObjectId").

(** Writes to one collection *)
Definition on_users (f : list (User.t oid) -> list (User.t oid))
    (d : Db.t oid) : Db.t oid :=
  Db.mk (f (Db.users d)) (Db.clubs d) (Db.events d).
Definition on_clubs (f : list (Club.t oid) -> list (Club.t oid))
    (d : Db.t oid) : Db.t oid :=
  Db.mk (Db.users d) (f (Db.clubs d)) (Db.events d).
Definition on_events (f : list (Event.t oid) -> list (Event.t oid))
    (d : Db.t oid) : Db.t oid :=
  Db.mk (Db.users d) (Db.clubs d) (f (Db.events d)).

(** Queries: [{"_id": o}], [{"email": e}], [{"studentId": s}], [{"name": n}] *)
Definition user_by_id (o : oid) (u : User.t oid) : bool := oid_eqb (User._id u) o.
Definition club_by_id (o : oid) (c : Club.t oid) : bool := oid_eqb (Club._id c) o.
Definition event_by_id (o : oid) (e : Event.t oid) : bool := oid_eqb (Event._id e) o.
Definition user_by_email (e : string) (u : User.t oid) : bool :=
  String.eqb (User.email u) e.
Definition user_by_studentId (s : string) (u : User.t oid) : bool :=
  match User.studentId u with
  | Some s' => String.eqb s' s
  | None => false
  end.
Definition club_by_name (n : string) (c : Club.t oid) : bool :=
  String.eqb (Club.name c) n.

(** *** Helper methods *)

Definition _generate_token (self : Self.t) (id email role : string) (now : Z) : string :=
  jwt_encode
    (JwtPayload.mk id email role (now + Self.token_expiry self))
    (Self.jwt_secret self).

Definition _sanitize_user (u : User.t oid) : SanitizedUser.t :=
  SanitizedUser.mk (oid_str (User._id u)) (User.name u) (User.email u)
    (User.role u) (User.isActive u) (User.createdAt u) (User.studentId u)
    (User.year u) (User.department u).

(** [user and user['role'] in [FACULTY.value, ADMIN.value]] *)
Definition is_faculty_or_admin (user : option (User.t oid)) : bool :=
  match user with
  | Some u => str_in (User.role u)
                [UserRole.value UserRole.FACULTY; UserRole.value UserRole.ADMIN]
  | None => false
  end.

(** The condition of the officer loop of [_can_approve_membership] *)
Definition is_officer_of (user_id : string) (member : Membership.t oid) : bool :=
  String.eqb (oid_str (Membership.userId member)) user_id
  && String.eqb (Membership.status member)
       (MembershipStatus.value MembershipStatus.ACTIVE)
  && str_in (Membership.role member) ["president"; "vice-president"; "secretary"].

(** The condition of the member loop of [_can_create_event] *)
Definition is_active_member_of (user_id : string) (member : Membership.t oid) : bool :=
  String.eqb (oid_str (Membership.userId member)) user_id
  && String.eqb (Membership.status member)
       (MembershipStatus.value MembershipStatus.ACTIVE).

Definition _can_approve_membership (club : Club.t oid) (user_id : string) : M oid bool :=
  o <- ObjectId_ user_id ;;
  user <- read (fun d => find_one (user_by_id o) (Db.users d)) ;;
  if is_faculty_or_admin user then ret true
  else if existsb (is_officer_of user_id) (Club.members club) then ret true
  else ret false.

Definition _can_create_event (club : Club.t oid) (user_id : string) : M oid bool :=
  o <- ObjectId_ user_id ;;
  user <- read (fun d => find_one (user_by_id o) (Db.users d)) ;;
  if is_faculty_or_admin user then ret true
  else if existsb (is_active_member_of user_id) (Club.members club) then ret true
  else ret false.

(** [self.redis.publish(channel, text)] *)
Definition redis_publish (self : Self.t) (channel text : string) : M oid unit :=
  fun w =>
    match Redis.publish (Self.redis self) channel text with
    | None =>
        (Return tt,
         World.mk (World.db w) (World.stdout w)
           (World.delivered w ++ [(channel, text)]))
    | Some e => (Raise e, w)
    end.

Definition _publish_notification (self : Self.t) (channel : string)
    (message : list (string * string)) : M oid unit :=
  try_except
    (redis_publish self channel
       (replace single_quote double_quote (dict_str message)))
    (fun e => print ("Failed to publish notification: " ++ exn_str e)).

(** *** User management *)

(** The role-specific validation of [register_user]: the error it returns
    with, if any. *)
Definition student_validation (user_data : UserData.t) (role : string)
    : M oid (option string) :=
  if String.eqb role (UserRole.value UserRole.STUDENT) then
    match UserData.studentId user_data, UserData.year user_data with
    | Some studentId, Some _ =>
        dup <- read (fun d => find_one (user_by_studentId studentId) (Db.users d)) ;;
        match dup with
        | Some _ => ret (Some "Student ID already exists")
        | None => ret None
        end
    | _, _ => ret (Some "Student ID and year required for students")
    end
  else ret None.

Definition register_user (self : Self.t) (user_data : UserData.t)
    (salt : string) (inserted_id : oid) (now : Z) : M oid (Result oid) :=
  try_except
    (match UserData.name user_data, UserData.email user_data,
           UserData.password user_data, UserData.role user_data with
     | Some name, Some email, Some password, Some role =>
         existing <- read (fun d => find_one (user_by_email email) (Db.users d)) ;;
         match existing with
         | Some _ => ret (false, ErrorDict "Email already exists")
         | None =>
             invalid <- student_validation user_data role ;;
             match invalid with
             | Some error => ret (false, ErrorDict error)
             | None =>
                 hashed_password <- call (hashpw password salt) ;;
                 let department := get (UserData.department user_data) "" in
                 let user :=
                   if String.eqb role (UserRole.value UserRole.STUDENT) then
                     User.mk inserted_id name email hashed_password role true now
                       (UserData.studentId user_data) (UserData.year user_data)
                       department []
                   else
                     User.mk inserted_id name email hashed_password role true now
                       None None department [] in
                 write (on_users (insert_one user)) ;;
                 let token :=
                   _generate_token self (oid_str inserted_id) email role now in
                 ret (true, UserDict "User registered successfully" token
                              (_sanitize_user user))
             end
         end
     | _, _, _, _ => ret (false, ErrorDict "Missing required fields")
     end)
    (fun e => ret (false, ErrorDict ("Registration failed: " ++ exn_str e))).

(** *** Club management *)

Definition create_club (self : Self.t) (club_data : ClubData.t)
    (creator_id : string) (inserted_id : oid) (now : Z) : M oid (Result oid) :=
  try_except
    (creator_oid <- ObjectId_ creator_id ;;
     creator <- read (fun d => find_one (user_by_id creator_oid) (Db.users d)) ;;
     if negb (is_faculty_or_admin creator) then
       ret (false, ErrorDict "Unauthorized to create clubs")
     else
       match ClubData.name club_data, ClubData.description club_data,
             ClubData.category club_data, ClubData.mission club_data,
             ClubData.vision club_data with
       | Some name, Some description, Some category, Some mission, Some vision =>
           existing <- read (fun d => find_one (club_by_name name) (Db.clubs d)) ;;
           match existing with
           | Some _ => ret (false, ErrorDict "Club name already exists")
           | None =>
               let club :=
                 Club.mk inserted_id name description category mission vision
                   creator_oid (get (ClubData.establishedDate club_data) now)
                   true [] [] now in
               write (on_clubs (insert_one club)) ;;
               _publish_notification self "club-updates"
                 [("type", "club-created");
                  ("clubId", oid_str inserted_id);
                  ("clubName", name);
                  ("timestamp", isoformat now)] ;;
               ret (true, ClubDict "Club created successfully"
                            (oid_str inserted_id) club)
           end
       | _, _, _, _, _ => ret (false, ErrorDict "Missing required fields")
       end)
    (fun e => ret (false, ErrorDict ("Failed to create club: " ++ exn_str e))).

(** The condition of the loops that look a user up in an embedded list:
    [str(member['userId']) == user_id] *)
Definition is_member (user_id : string) (member : Membership.t oid) : bool :=
  String.eqb (oid_str (Membership.userId member)) user_id.

Definition join_club (self : Self.t) (club_id user_id : string) (now : Z)
    : M oid (Result oid) :=
  try_except
    (club_oid <- ObjectId_ club_id ;;
     found <- read (fun d => find_one (club_by_id club_oid) (Db.clubs d)) ;;
     match found with
     | None => ret (false, ErrorDict "Club not found")
     | Some club =>
         if negb (Club.isActive club) then
           ret (false, ErrorDict "Club not found")
         else if existsb (is_member user_id) (Club.members club) then
           ret (false, ErrorDict "Already a member of this club")
         else
           user_oid <- ObjectId_ user_id ;;
           let membership :=
             Membership.mk user_oid "member"
               (MembershipStatus.value MembershipStatus.PENDING) now in
           write (on_clubs (update_one (club_by_id club_oid)
                                       (Club.push_members membership))) ;;
           write (on_users (update_one (user_by_id user_oid)
                                       (User.push_clubs (ClubRef.mk club_id "member")))) ;;
           found_user <- read (fun d => find_one (user_by_id user_oid) (Db.users d)) ;;
           user <- or_raise found_user NoneType_not_subscriptable ;;
           _publish_notification self "club-updates"
             [("type", "membership-request");
              ("clubId", club_id);
              ("userId", user_id);
              ("clubName", Club.name club);
              ("userName", User.name user);
              ("timestamp", isoformat now)] ;;
           ret (true, MessageDict "Membership request sent successfully")
     end)
    (fun e => ret (false, ErrorDict ("Failed to join club: " ++ exn_str e))).

(** The loop of [approve_membership]: the first member whose id matches gets
    status active, and [updated] tells whether there was one. *)
Fixpoint approve_first (member_id : string) (members : list (Membership.t oid))
    : list (Membership.t oid) * bool :=
  match members with
  | [] => ([], false)
  | member :: rest =>
      if is_member member_id member then
        (Membership.set_status (MembershipStatus.value MembershipStatus.ACTIVE) member
           :: rest, true)
      else
        let (rest', updated) := approve_first member_id rest in
        (member :: rest', updated)
  end.

Definition approve_membership (self : Self.t) (club_id member_id approver_id : string)
    : M oid (Result oid) :=
  try_except
    (club_oid <- ObjectId_ club_id ;;
     found <- read (fun d => find_one (club_by_id club_oid) (Db.clubs d)) ;;
     match found with
     | None => ret (false, ErrorDict "Club not found")
     | Some club =>
         allowed <- _can_approve_membership club approver_id ;;
         if negb allowed then
           ret (false, ErrorDict "Insufficient permissions")
         else
           let (members, updated) := approve_first member_id (Club.members club) in
           if negb updated then
             ret (false, ErrorDict "Member not found")
           else
             write (on_clubs (replace_one (club_by_id club_oid)
                                          (Club.set_members members club))) ;;
             ret (true, MessageDict "Membership approved successfully")
     end)
    (fun e => ret (false, ErrorDict ("Failed to approve membership: " ++ exn_str e))).

(** *** Event management *)

Definition create_event (self : Self.t) (event_data : EventData.t)
    (creator_id : string) (inserted_id : oid) (now : Z) : M oid (Result oid) :=
  try_except
    (match EventData.title event_data, EventData.description event_data,
           EventData.clubId event_data, EventData.eventType event_data,
           EventData.venue event_data, EventData.date event_data,
           EventData.startTime event_data, EventData.endTime event_data with
     | Some title, Some description, Some clubId, Some eventType,
       Some venue, Some date, Some startTime, Some endTime =>
         club_oid <- ObjectId_ clubId ;;
         found <- read (fun d => find_one (club_by_id club_oid) (Db.clubs d)) ;;
         match found with
         | None => ret (false, ErrorDict "Club not found")
         | Some club =>
             if negb (Club.isActive club) then
               ret (false, ErrorDict "Club not found")
             else
               allowed <- _can_create_event club creator_id ;;
               if negb allowed then
                 ret (false,
                      ErrorDict "Not authorized to create events for this club")
               else
                 creator_oid <- ObjectId_ creator_id ;;
                 parsed <- call (strptime date) ;;
                 let event :=
                   Event.mk inserted_id title description club_oid creator_oid
                     eventType venue parsed startTime endTime
                     (get (EventData.maxParticipants event_data) 0)
                     (Budget.mk (get (EventData.budget event_data) 0) 0)
                     (EventStatus.value EventStatus.PENDING) [] now None None in
                 write (on_events (insert_one event)) ;;
                 write (on_clubs (update_one (club_by_id club_oid)
                                             (Club.push_events inserted_id))) ;;
                 found_creator <-
                   read (fun d => find_one (user_by_id creator_oid) (Db.users d)) ;;
                 creator <- or_raise found_creator NoneType_not_subscriptable ;;
                 _publish_notification self "event-updates"
                   [("type", "event-created");
                    ("eventId", oid_str inserted_id);
                    ("clubId", clubId);
                    ("title", title);
                    ("organizer", User.name creator);
                    ("timestamp", isoformat now)] ;;
                 ret (true, EventDict "Event created successfully"
                              (oid_str inserted_id) event)
         end
     | _, _, _, _, _, _, _, _ => ret (false, ErrorDict "Missing required fields")
     end)
    (fun e => ret (false, ErrorDict ("Failed to create event: " ++ exn_str e))).

(** [str(participant['userId']) == user_id] *)
Definition is_participant (user_id : string) (participant : Registration.t oid) : bool :=
  String.eqb (oid_str (Registration.userId participant)) user_id.

(** [event['maxParticipants'] > 0 and
     len(event['registeredParticipants']) >= event['maxParticipants']] *)
Definition is_full (event : Event.t oid) : bool :=
  (0 <? Event.maxParticipants event)
  && (Event.maxParticipants event
        <=? Z.of_nat (List.length (Event.registeredParticipants event))).

Definition register_for_event (self : Self.t) (event_id user_id : string) (now : Z)
    : M oid (Result oid) :=
  try_except
    (event_oid <- ObjectId_ event_id ;;
     found <- read (fun d => find_one (event_by_id event_oid) (Db.events d)) ;;
     match found with
     | None => ret (false, ErrorDict "Event not found")
     | Some event =>
         if existsb (is_participant user_id) (Event.registeredParticipants event) then
           ret (false, ErrorDict "Already registered for this event")
         else if is_full event then
           ret (false, ErrorDict "Event is full")
         else
           user_oid <- ObjectId_ user_id ;;
           let registration := Registration.mk user_oid now in
           write (on_events (update_one (event_by_id event_oid)
                               (Event.push_registeredParticipants registration))) ;;
           ret (true, MessageDict "Successfully registered for event")
     end)
    (fun e => ret (false, ErrorDict ("Failed to register for event: " ++ exn_str e))).

Definition approve_event (self : Self.t) (event_id : string)
    (approver_data : ApproverData.t) (approver_id : string) (now : Z)
    : M oid (Result oid) :=
  try_except
    (approver_oid <- ObjectId_ approver_id ;;
     found_approver <-
       read (fun d => find_one (user_by_id approver_oid) (Db.users d)) ;;
     match found_approver with
     | None => ret (false, ErrorDict "Unauthorized to approve events")
     | Some approver =>
         if negb (is_faculty_or_admin (Some approver)) then
           ret (false, ErrorDict "Unauthorized to approve events")
         else
           event_oid <- ObjectId_ event_id ;;
           found <- read (fun d => find_one (event_by_id event_oid) (Db.events d)) ;;
           match found with
           | None => ret (false, ErrorDict "Event not found")
           | Some event =>
               write (on_events (update_one (event_by_id event_oid)
                        (Event.set_approval
                           (EventStatus.value EventStatus.APPROVED)
                           approver_oid
                           (get (ApproverData.approvalNotes approver_data) "")
                           (get (ApproverData.approvedBudget approver_data) 0)))) ;;
               found_club <-
                 read (fun d => find_one (club_by_id (Event.clubId event)) (Db.clubs d)) ;;
               club <- or_raise found_club NoneType_not_subscriptable ;;
               _publish_notification self "event-updates"
                 [("type", "event-approved");
                  ("eventId", event_id);
                  ("title", Event.title event);
                  ("clubName", Club.name club);
                  ("approvedBy", User.name approver);
                  ("timestamp", isoformat now)] ;;
               ret (true, MessageDict "Event approved successfully")
           end
     end)
    (fun e => ret (false, ErrorDict ("Failed to approve event: " ++ exn_str e))).

End ClubManagementSystem.

(** ** The methods that only read

    [login_user], [get_user_profile], [get_clubs], [get_events] and
    [get_pending_approvals].  They need two more imported functions:
    bcrypt's check of a password against a hash, and the regular expressions
    of the store.

    [get_dashboard_stats] is not embedded: it calls [count_documents]
    without a filter, and the order of its grouped and sorted results among
    equal counts and equal dates is the store's choice, which the source
    does not fix. *)

Class Bcrypt : Type := {
  (** [bcrypt.checkpw(password.encode('utf-8'), hashed)]; [None] when bcrypt
      raises [ValueError] for a hash it cannot read *)
  checkpw : string -> string -> option bool
}.

Class Regex : Type := {
  (** the message of the error the store raises for a pattern it cannot
      compile; [None] for a pattern it accepts *)
  regex_error : string -> option string;
  (** [{"$regex": pattern, "$options": "i"}] on a text *)
  regex_search : string -> string -> bool
}.

(** What a method that reads returns: [True, payload] or
    [False, {"error": error}]. *)
Inductive Reply (P : Type) : Type :=
| Payload (payload : P)
| ErrorReply (error : string).
Arguments ErrorReply {P} error.

Definition Answer (P : Type) : Type := (bool * Reply P)%type.

(** [str(KeyError(key))] *)
Definition KeyError_str (key : string) : string := "'" ++ key ++ "'".

Module Credentials.
Record t : Type := mk { email : option string; password : option string }.
End Credentials.

Module ProfileClub.
Record t : Type := mk {
  clubId : string;
  name : string;
  category : string;
  role : string
}.
End ProfileClub.

(** The user document without its password, with [_id] as a string and
    [clubs] replaced by the populated list. *)
Module Profile.
Record t : Type := mk { user : SanitizedUser.t; clubs : list ProfileClub.t }.
End Profile.

Module ClubFilters.
Record t : Type := mk { category : option string; search : option string }.
End ClubFilters.

(** A club document with [_id] and [facultyCoordinator] overwritten by
    their [str]; [doc] holds the other keys. *)
Module ClubView.
Record t {oid : Type} : Type := mk {
  _id : string;
  facultyCoordinator : string;
  doc : Club.t oid
}.
Arguments t : clear implicits.
End ClubView.

Module EventFilters.
Record t : Type := mk {
  status : option string;
  clubId : option string;
  upcoming : option string
}.
End EventFilters.

(** An event document with [_id], [clubId], [organizer] and, in
    [get_events], [approvedBy] overwritten by their [str]; [doc] holds the
    other keys. *)
Module EventView.
Record t {oid : Type} : Type := mk {
  _id : string;
  clubId : string;
  organizer : string;
  approvedBy : option string;
  doc : Event.t oid
}.
Arguments t : clear implicits.
End EventView.

Module PendingEvent.
Record t {oid : Type} : Type := mk {
  _id : string;
  clubId : string;
  organizer : string;
  doc : Event.t oid
}.
Arguments t : clear implicits.
End PendingEvent.

Module PendingUser.
Record t : Type := mk {
  id : string;
  name : string;
  email : string;
  department : string
}.
End PendingUser.

Module PendingMembership.
Record t : Type := mk {
  clubId : string;
  clubName : string;
  user : PendingUser.t;
  requestDate : string
}.
End PendingMembership.

Module PendingApprovals.
Record t {oid : Type} : Type := mk {
  pendingEvents : list (PendingEvent.t oid);
  pendingMemberships : list PendingMembership.t
}.
Arguments t : clear implicits.
End PendingApprovals.

Section ClubQueries.
Context {oid : Type} {RT : Runtime oid} {NS : Globals} {BC : Bcrypt} {RX : Regex}.

(** [credentials['email']] and [credentials['password']] raise [KeyError]
    for a missing key; the handler of [login_user] turns it into the error
    written here. *)
Definition login_user (self : Self.t) (credentials : Credentials.t) (now : Z)
    : M oid (Result oid) :=
  try_except
    (match Credentials.email credentials with
     | None => ret (false, ErrorDict ("Login failed: " ++ KeyError_str "email"))
     | Some email =>
         found <- read (fun d => find_one (user_by_email email) (Db.users d)) ;;
         match found with
         | None => ret (false, ErrorDict "Invalid credentials")
         | Some user =>
             if negb (User.isActive user) then
               ret (false, ErrorDict "Invalid credentials")
             else
               match Credentials.password credentials with
               | None =>
                   ret (false,
                        ErrorDict ("Login failed: " ++ KeyError_str "password"))
               | Some password =>
                   matches <- or_raise (checkpw password (User.password user))
                                (ValueError "Invalid salt") ;;
                   if negb matches then
                     ret (false, ErrorDict "Invalid credentials")
                   else
                     let token :=
                       _generate_token self (oid_str (User._id user))
                         (User.email user) (User.role user) now in
                     ret (true, UserDict "Login successful" token
                                  (_sanitize_user user))
               end
         end
     end)
    (fun e => ret (false, ErrorDict ("Login failed: " ++ exn_str e))).

(** The loop of [get_user_profile] over [user.get('clubs', [])]: a
    reference whose club is not found is skipped. *)
Fixpoint populate_clubs (club_refs : list ClubRef.t) : M oid (list ProfileClub.t) :=
  match club_refs with
  | [] => ret []
  | club_ref :: rest =>
      club_oid <- ObjectId_ (ClubRef.clubId club_ref) ;;
      found <- read (fun d => find_one (club_by_id club_oid) (Db.clubs d)) ;;
      clubs <- populate_clubs rest ;;
      match found with
      | Some club =>
          ret (ProfileClub.mk (oid_str (Club._id club)) (Club.name club)
                 (Club.category club) (ClubRef.role club_ref) :: clubs)
      | None => ret clubs
      end
  end.

Definition get_user_profile (self : Self.t) (user_id : string)
    : M oid (Answer Profile.t) :=
  try_except
    (user_oid <- ObjectId_ user_id ;;
     found <- read (fun d => find_one (user_by_id user_oid) (Db.users d)) ;;
     match found with
     | None => ret (false, ErrorReply "User not found")
     | Some user =>
         clubs <- populate_clubs (User.clubs user) ;;
         ret (true, Payload (Profile.mk (_sanitize_user user) clubs))
     end)
    (fun e => ret (false, ErrorReply ("Failed to get profile: " ++ exn_str e))).

(** [filters.get(key)] as a condition: the key is there and its value is
    not the empty string. *)
Definition truthy (field : option string) : bool :=
  match field with
  | Some s => negb (String.eqb s "")
  | None => false
  end.

(** [query['category']] of [get_clubs], if the method sets it *)
Definition category_query (filters : option ClubFilters.t) : option string :=
  match filters with
  | Some f =>
      if truthy (ClubFilters.category f)
         && negb (String.eqb (get (ClubFilters.category f) "") "all")
      then ClubFilters.category f
      else None
  | None => None
  end.

(** The pattern of [query['$or']] of [get_clubs], if the method sets it *)
Definition search_query (filters : option ClubFilters.t) : option string :=
  match filters with
  | Some f => if truthy (ClubFilters.search f) then ClubFilters.search f else None
  | None => None
  end.

(** The query of [get_clubs] on a club document *)
Definition clubs_query (category search : option string) (club : Club.t oid) : bool :=
  Club.isActive club
  && match category with
     | Some c => String.eqb (Club.category club) c
     | None => true
     end
  && match search with
     | Some pattern =>
         regex_search pattern (Club.name club)
         || regex_search pattern (Club.description club)
     | None => true
     end.

Definition club_view (club : Club.t oid) : ClubView.t oid :=
  ClubView.mk (oid_str (Club._id club)) (oid_str (Club.facultyCoordinator club))
    club.

(** No club document has the key [president]: the code never writes it, so
    the last conversion of the loop of [get_clubs] is not taken.  A pattern
    the store cannot compile makes [find] raise, and the handler returns the
    error written here. *)
Definition get_clubs (self : Self.t) (filters : option ClubFilters.t)
    : M oid (Answer (list (ClubView.t oid))) :=
  try_except
    (let category := category_query filters in
     let search := search_query filters in
     match option_map regex_error search with
     | Some (Some message) =>
         ret (false, ErrorReply ("Failed to get clubs: " ++ message))
     | _ =>
         clubs <- read (fun d => filter (clubs_query category search) (Db.clubs d)) ;;
         ret (true, Payload (map club_view clubs))
     end)
    (fun e => ret (false, ErrorReply ("Failed to get clubs: " ++ exn_str e))).

(** The query of [get_events] on an event document *)
Definition events_query (status : option string) (club : option oid)
    (since : option Z) (event : Event.t oid) : bool :=
  match status with
  | Some s => String.eqb (Event.status event) s
  | None => true
  end
  && match club with
     | Some c => oid_eqb (Event.clubId event) c
     | None => true
     end
  && match since with
     | Some t => t <=? Event.date event
     | None => true
     end.

Definition event_view (event : Event.t oid) : EventView.t oid :=
  EventView.mk (oid_str (Event._id event)) (oid_str (Event.clubId event))
    (oid_str (Event.organizer event)) (option_map oid_str (Event.approvedBy event))
    event.

Definition get_events (self : Self.t) (filters : option EventFilters.t) (now : Z)
    : M oid (Answer (list (EventView.t oid))) :=
  try_except
    (let status :=
       match filters with
       | Some f => if truthy (EventFilters.status f) then EventFilters.status f else None
       | None => None
       end in
     club <- match filters with
             | Some f =>
                 if truthy (EventFilters.clubId f) then
                   o <- ObjectId_ (get (EventFilters.clubId f) "") ;; ret (Some o)
                 else ret None
             | None => ret None
             end ;;
     let since :=
       match filters with
       | Some f =>
           match EventFilters.upcoming f with
           | Some u => if String.eqb u "true" then Some now else None
           | None => None
           end
       | None => None
       end in
     events <- read (fun d => filter (events_query status club since) (Db.events d)) ;;
     ret (true, Payload (map event_view events)))
    (fun e => ret (false, ErrorReply ("Failed to get events: " ++ exn_str e))).

Definition is_pending_event (event : Event.t oid) : bool :=
  String.eqb (Event.status event) (EventStatus.value EventStatus.PENDING).

Definition is_pending_member (member : Membership.t oid) : bool :=
  String.eqb (Membership.status member)
    (MembershipStatus.value MembershipStatus.PENDING).

Definition pending_event (event : Event.t oid) : PendingEvent.t oid :=
  PendingEvent.mk (oid_str (Event._id event)) (oid_str (Event.clubId event))
    (oid_str (Event.organizer event)) event.

(** The inner loop of [get_pending_approvals] over the members of a club *)
Definition pending_memberships_of (users : list (User.t oid)) (club : Club.t oid)
    : list PendingMembership.t :=
  flat_map
    (fun member =>
       if is_pending_member member then
         match find_one (user_by_id (Membership.userId member)) users with
         | Some user =>
             [PendingMembership.mk (oid_str (Club._id club)) (Club.name club)
                (PendingUser.mk (oid_str (User._id user)) (User.name user)
                   (User.email user) (User.department user))
                (isoformat (Membership.joinedAt member))]
         | None => []
         end
       else [])
    (Club.members club).

Definition get_pending_approvals (self : Self.t)
    : M oid (Answer (PendingApprovals.t oid)) :=
  try_except
    (pending_events <-
       read (fun d => map pending_event (filter is_pending_event (Db.events d))) ;;
     clubs_with_pending <-
       read (fun d => filter (fun club => existsb is_pending_member (Club.members club))
                        (Db.clubs d)) ;;
     pending_memberships <-
       read (fun d => flat_map (pending_memberships_of (Db.users d)) clubs_with_pending) ;;
     ret (true, Payload (PendingApprovals.mk pending_events pending_memberships)))
    (fun e => ret (false, ErrorReply ("Failed to get pending approvals: " ++ exn_str e))).

End ClubQueries.

(** * Vocabulary of the properties

    The words the properties are stated with: what the store says about an
    actor, a club or an event, and the worlds the operations lead to. *)

Section Vocabulary.
Context {oid : Type} {RT : Runtime oid}.
Implicit Types (w : World.t oid) (o : oid).

(** The actor [user_id] has no membership record in [club]. *)
Definition no_membership (user_id : string) (club : Club.t oid) : Prop :=
  forall m, In m (Club.members club) -> oid_str (Membership.userId m) <> user_id.

(** [len(event['registeredParticipants'])] *)
Definition registration_count (event : Event.t oid) : Z :=
  Z.of_nat (List.length (Event.registeredParticipants event)).

(** The world in which the first event with id [o] has status [st]. *)
Definition with_event_status (o : oid) (st : string) w : World.t oid :=
  World.mk
    (on_events (update_one (event_by_id o) (Event.set_status st)) (World.db w))
    (World.stdout w) (World.delivered w).

(** A membership exists for [user_id] in [club], in whatever status. *)
Definition has_membership (user_id : string) (club : Club.t oid) : Prop :=
  exists m, In m (Club.members club) /\ oid_str (Membership.userId m) = user_id.

(** The number of entries of the member list of [club] for [user_id]. *)
Definition membership_count (user_id : string) (club : Club.t oid) : nat :=
  List.length (filter (is_member user_id) (Club.members club)).

Definition ACTIVE : string := MembershipStatus.value MembershipStatus.ACTIVE.

(** The membership at place [j] of the member list of the club at place [i]. *)
Definition membership_at (d : Db.t oid) (i j : nat) : option (Membership.t oid) :=
  match nth_error (Db.clubs d) i with
  | Some c => nth_error (Club.members c) j
  | None => None
  end.

(** The emails of the Identity Store, one per user document. *)
Definition emails (d : Db.t oid) : list string := map User.email (Db.users d).

Definition studentId_of (u : User.t oid) : list string :=
  match User.studentId u with
  | Some s => [s]
  | None => []
  end.

(** The student ids of the Identity Store: one per user document that has
    the key, and these are the documents of the students. *)
Definition studentIds (d : Db.t oid) : list string :=
  flat_map studentId_of (Db.users d).

(** Every email and every student id occurs at most once. *)
Definition unique_identities (d : Db.t oid) : Prop :=
  NoDup (emails d) /\ NoDup (studentIds d).

(** A sequence of calls of [register_user], each with its arguments. *)
Fixpoint register_users (self : Self.t)
    (calls : list (UserData.t * string * oid * Z)) w : World.t oid :=
  match calls with
  | [] => w
  | (user_data, salt, inserted_id, now) :: rest =>
      register_users self rest
        (snd (register_user self user_data salt inserted_id now w))
  end.

(** The names of the clubs of the store, one per club document. *)
Definition club_names (d : Db.t oid) : list string := map Club.name (Db.clubs d).

(** An event holds no more registrations than its capacity, when it has
    one. *)
Definition within_capacity (event : Event.t oid) : Prop :=
  0 < Event.maxParticipants event ->
  registration_count event <= Event.maxParticipants event.

Definition capacity_respected (d : Db.t oid) : Prop :=
  Forall within_capacity (Db.events d).

(** The users registered for an event, as the loop of [register_for_event]
    reads them: [str(participant['userId'])]. *)
Definition registrants (event : Event.t oid) : list string :=
  map (fun p => oid_str (Registration.userId p)) (Event.registeredParticipants event).

(** At most one registration per event and user. *)
Definition registrations_unique (d : Db.t oid) : Prop :=
  Forall (fun event => NoDup (registrants event)) (Db.events d).

(** The users with a membership in a club, as the loop of [join_club] reads
    them: [str(member['userId'])]. *)
Definition member_ids (club : Club.t oid) : list string :=
  map (fun m => oid_str (Membership.userId m)) (Club.members club).

(** At most one membership per club and user. *)
Definition memberships_unique (d : Db.t oid) : Prop :=
  Forall (fun club => NoDup (member_ids club)) (Db.clubs d).

(** Every membership of every club has the in-club role "member". *)
Definition plain_members (d : Db.t oid) : Prop :=
  Forall (fun club => Forall (fun m => Membership.role m = "member") (Club.members club))
    (Db.clubs d).

(** Every club reference kept on a user holds an id that [ObjectId]
    accepts. *)
Definition club_refs_valid (d : Db.t oid) : Prop :=
  Forall (fun user =>
            Forall (fun ref => ObjectId (ClubRef.clubId ref) <> None) (User.clubs user))
    (Db.users d).

(** What identifies an account: every key of the user document but
    [clubs]. *)
Definition user_identity (u : User.t oid) :=
  (User._id u, User.name u, User.email u, User.password u, User.role u,
   User.isActive u, User.createdAt u, User.studentId u, User.year u,
   User.department u).

Definition accounts (d : Db.t oid) := map user_identity (Db.users d).

(** What describes a club: every key of the club document but [members]
    and [events]. *)
Definition club_description (c : Club.t oid) :=
  (Club._id c, Club.name c, Club.description c, Club.category c,
   Club.mission c, Club.vision c, Club.facultyCoordinator c,
   Club.establishedDate c, Club.isActive c, Club.createdAt c).

Definition club_descriptions (d : Db.t oid) := map club_description (Db.clubs d).

(** What describes an event: every key of the event document but the
    status, the approval and the registrations. *)
Definition event_description (e : Event.t oid) :=
  (Event._id e, Event.title e, Event.description e, Event.clubId e,
   Event.organizer e, Event.eventType e, Event.venue e, Event.date e,
   Event.startTime e, Event.endTime e, Event.maxParticipants e,
   Budget.requested (Event.budget e), Event.createdAt e).

Definition event_descriptions (d : Db.t oid) := map event_description (Db.events d).

(** The world once [register_user] has stored a user. *)
Definition with_user (user : User.t oid) w : World.t oid :=
  World.mk (on_users (insert_one user) (World.db w))
    (World.stdout w) (World.delivered w).


Definition pending_memberships (d : Db.t oid) : list PendingMembership.t :=
  flat_map (pending_memberships_of (Db.users d))
    (filter (fun club => existsb is_pending_member (Club.members club)) (Db.clubs d)).



End Vocabulary.

(** ** Calls of the methods

    A call of one of the twelve methods embedded here, with its arguments,
    and the world it leaves. *)

Section Calls.
Context {oid : Type} {RT : Runtime oid} {NS : Globals} {BC : Bcrypt} {RX : Regex}.

Inductive invocation : Type :=
| Register_user (user_data : UserData.t) (salt : string) (inserted_id : oid) (now : Z)
| Login_user (credentials : Credentials.t) (now : Z)
| Get_user_profile (user_id : string)
| Create_club (club_data : ClubData.t) (creator_id : string) (inserted_id : oid)
    (now : Z)
| Join_club (club_id user_id : string) (now : Z)
| Approve_membership (club_id member_id approver_id : string)
| Get_clubs (filters : option ClubFilters.t)
| Create_event (event_data : EventData.t) (creator_id : string) (inserted_id : oid)
    (now : Z)
| Register_for_event (event_id user_id : string) (now : Z)
| Approve_event (event_id : string) (approver_data : ApproverData.t)
    (approver_id : string) (now : Z)
| Get_events (filters : option EventFilters.t) (now : Z)
| Get_pending_approvals.

Definition after (self : Self.t) (c : invocation) (w : World.t oid) : World.t oid :=
  match c with
  | Register_user user_data salt inserted_id now =>
      snd (register_user self user_data salt inserted_id now w)
  | Login_user credentials now => snd (login_user self credentials now w)
  | Get_user_profile user_id => snd (get_user_profile self user_id w)
  | Create_club club_data creator_id inserted_id now =>
      snd (create_club self club_data creator_id inserted_id now w)
  | Join_club club_id user_id now => snd (join_club self club_id user_id now w)
  | Approve_membership club_id member_id approver_id =>
      snd (approve_membership self club_id member_id approver_id w)
  | Get_clubs filters => snd (get_clubs self filters w)
  | Create_event event_data creator_id inserted_id now =>
      snd (create_event self event_data creator_id inserted_id now w)
  | Register_for_event event_id user_id now =>
      snd (register_for_event self event_id user_id now w)
  | Approve_event event_id approver_data approver_id now =>
      snd (approve_event self event_id approver_data approver_id now w)
  | Get_events filters now => snd (get_events self filters now w)
  | Get_pending_approvals => snd (get_pending_approvals self w)
  end.

(** The world a sequence of calls leaves. *)
Fixpoint after_all (self : Self.t) (calls : list invocation) (w : World.t oid)
    : World.t oid :=
  match calls with
  | [] => w
  | c :: rest => after_all self rest (after self c w)
  end.

End Calls.

(** * A runtime and a store to run the operations on *)

(** bson's [ObjectId] on strings: a string of 24 hexadecimal digits is an
    object id, and [str] of an object id writes the digits in lower case.
    An object id is kept as that lower-case string. *)

Definition is_hex_digit (c : ascii) : bool :=
  let n := nat_of_ascii c in
  ((48 <=? n) && (n <=? 57) || (97 <=? n) && (n <=? 102)
   || (65 <=? n) && (n <=? 70))%nat.

Definition to_lower (c : ascii) : ascii :=
  let n := nat_of_ascii c in
  if ((65 <=? n) && (n <=? 90))%nat then ascii_of_nat (n + 32) else c.

Fixpoint lower (s : string) : string :=
  match s with
  | EmptyString => EmptyString
  | String c rest => String (to_lower c) (lower rest)
  end.

Definition bson_ObjectId (s : string) : option string :=
  if (String.length s =? 24)%nat && forallb is_hex_digit (list_ascii_of_string s)
  then Some (lower s)
  else None.

(** [str(d)] for a dict of strings without quotes in them *)
Definition python_dict_str (d : list (string * string)) : string :=
  "{" ++ String.concat ", "
           (map (fun kv => "'" ++ fst kv ++ "': '" ++ snd kv ++ "'") d)
      ++ "}".

(** The functions below stand in for bcrypt, jwt and datetime; the
    properties do not depend on what they compute.  [hashpw] refuses a
    password of more than 72 bytes, as bcrypt does from its version 5.0
    on. *)
Definition example_runtime : Runtime string := {|
  oid_eq_dec := string_dec;
  ObjectId := bson_ObjectId;
  oid_str := fun o => o;
  hashpw := fun password salt =>
    if (72 <? String.length password)%nat then
      Raise (ValueError "password cannot be longer than 72 bytes")
    else Return (salt ++ password);
  jwt_encode := fun payload secret => JwtPayload.id payload ++ "." ++ secret;
  strptime := fun s =>
    if (String.length s =? 10)%nat then Return 0
    else Raise (ValueError ("time data '" ++ s ++ "' does not match format '%Y-%m-%d'"));
  isoformat := fun _ => "1970-01-01T00:00:00";
  dict_str := python_dict_str
|}.

Definition redis_up : Redis.t := Redis.mk (fun _ _ => None).

Definition self_up : Self.t := Self.mk redis_up "secret" 86400.

Definition faculty_id : string := "64b000000000000000000001".
Definition president_id : string := "64b000000000000000000002".
Definition applicant_id : string := "64b000000000000000000003".
Definition rejected_id : string := "64b000000000000000000004".
Definition newcomer_id : string := "64b000000000000000000005".
Definition other_id : string := "64b000000000000000000006".
Definition chess_id : string := "64c000000000000000000001".
Definition tournament_id : string := "64e000000000000000000001".

Definition example_user (id name role : string) (studentId : option string)
    : User.t string :=
  User.mk id name (name ++ "@kmit.in") "$2b$hash" role true 0 studentId
    (option_map (fun _ => "2") studentId) "CSE" [].

Definition example_users : list (User.t string) :=
  [ example_user faculty_id "rao" "faculty" None;
    example_user president_id "asha" "student" (Some "21BD1A0501");
    example_user applicant_id "bala" "student" (Some "21BD1A0502");
    example_user rejected_id "chitra" "student" (Some "21BD1A0503");
    example_user newcomer_id "deepak" "student" (Some "21BD1A0504");
    example_user other_id "esha" "student" (Some "21BD1A0505") ].

Definition president_membership : Membership.t string :=
  Membership.mk president_id "president" "active" 1.
Definition applicant_membership : Membership.t string :=
  Membership.mk applicant_id "member" "pending" 2.
Definition rejected_membership : Membership.t string :=
  Membership.mk rejected_id "member" "rejected" 3.

Definition chess_club : Club.t string :=
  Club.mk chess_id "Chess" "Chess club" "games" "play" "win" faculty_id 0 true
    [president_membership; applicant_membership; rejected_membership]
    [tournament_id] 0.

Definition tournament : Event.t string :=
  Event.mk tournament_id "Open" "Open tournament" chess_id president_id
    "competition" "Hall" 0 "10:00" "12:00" 1 (Budget.mk 500 0) "pending" [] 0
    None None.

Definition example_world : World.t string :=
  World.mk (Db.mk example_users [chess_club] [tournament]) [] [].

(** A club whose only member is the given one. *)
Definition club_of (m : Membership.t string) : Club.t string :=
  Club.mk chess_id "Chess" "Chess club" "games" "play" "win" faculty_id 0 true
    [m] [] 0.

Definition new_student : UserData.t :=
  UserData.mk (Some "farah") (Some "farah@kmit.in") (Some "pw") (Some "student")
    (Some "21BD1A0506") (Some "2") None.

Definition new_id : string := "64b000000000000000000007".

Definition approval : ApproverData.t :=
  ApproverData.mk (Some "Approved by the coordinator") (Some 300).

(** The example store once the newcomer holds the one place of the
    tournament. *)
Definition full_world : World.t string :=
  World.mk
    (Db.mk example_users [chess_club]
       [Event.push_registeredParticipants (Registration.mk newcomer_id 9) tournament])
    [] [].

Definition go_club : ClubData.t :=
  ClubData.mk (Some "Go") (Some "Go club") (Some "games") (Some "play")
    (Some "win") None.

(** Stand-ins for bcrypt's check and for the regular expressions of the
    store: a hash is accepted for a password when it ends with it, a pattern
    matches a text that contains it, whatever the case, and the pattern "("
    does not compile. *)
Definition example_bcrypt : Bcrypt := {|
  checkpw := fun password hashed =>
    if String.eqb hashed "" then None
    else Some (String.eqb
                 (substring (String.length hashed - String.length password)
                    (String.length password) hashed)
                 password)
|}.

Definition example_regex : Regex := {|
  regex_error := fun pattern =>
    if String.eqb pattern "(" then Some "Regular expression is invalid: missing )"
    else None;
  regex_search := fun pattern text =>
    match String.index 0 (lower pattern) (lower text) with
    | Some _ => true
    | None => false
    end
|}.

(** A store like the example store whose club has plain members only. *)
Definition plain_world : World.t string :=
  World.mk (Db.mk example_users [club_of applicant_membership] [tournament]) [] [].




Definition workshop : EventData.t :=
  EventData.mk (Some "Openings") (Some "A workshop on openings") (Some chess_id)
    (Some "workshop") (Some "Lab") (Some "2026-01-10") (Some "14:00") (Some "16:00")
    (Some 20) None.

Definition workshop_without_date : EventData.t :=
  EventData.mk (Some "Openings") (Some "A workshop on openings") (Some chess_id)
    (Some "workshop") (Some "Lab") None (Some "14:00") (Some "16:00")
    (Some 20) None.

Definition workshop_id : string := "64e000000000000000000002".

(** * Properties *)

(** ** Collections *)

Section CollectionFacts.
Context {D : Type}.
Implicit Types (query : D -> bool) (coll : list D).

Lemma find_one_some query coll doc :
  find_one query coll = Some doc -> In doc coll /\ query doc = true.
Proof. apply find_some. Qed.

End CollectionFacts.

Section Facts.
Context {oid : Type} {RT : Runtime oid} {NS : Globals}.
Implicit Types (w : World.t oid) (o : oid).
Implicit Types (club : Club.t oid) (event : Event.t oid) (m : Membership.t oid).

(** ** Running the operations *)

Ltac red_world :=
  cbn [fst snd negb World.db World.stdout World.delivered
       Db.users Db.clubs Db.events on_users on_clubs on_events].

Ltac run :=
  unfold try_except, bind, ObjectId_, or_raise, call, read, write, print, ret, raise;
  red_world.

(** [_publish_notification] always returns: an exception of the client is
    caught, and the store is not touched. *)
Lemma _publish_notification_run self channel message w :
  _publish_notification self channel message w =
    (Return tt,
     match Redis.publish (Self.redis self) channel
             (replace single_quote double_quote (dict_str message)) with
     | None =>
         World.mk (World.db w) (World.stdout w)
           (World.delivered w
              ++ [(channel, replace single_quote double_quote (dict_str message))])
     | Some e =>
         World.mk (World.db w)
           (World.stdout w ++ ["Failed to publish notification: " ++ exn_str e])
           (World.delivered w)
     end).
Proof.
  unfold _publish_notification, redis_publish. run.
  now destruct (Redis.publish _ _ _).
Qed.

(** ** Registration of users: uniqueness of emails and student ids *)

Lemma NoDup_snoc {A} (l : list A) (x : A) :
  NoDup l -> ~ In x l -> NoDup (l ++ [x]).
Proof.
  intros Hl Hx. induction Hl as [|y l Hy Hl IH]; simpl.
  - constructor; [intros []|constructor].
  - constructor.
    + intros Hin. apply in_app_or in Hin as [Hin|[->|[]]]; [contradiction|].
      apply Hx. now left.
    + apply IH. intros Hin. apply Hx. now right.
Qed.

Lemma find_email_some email (users : list (User.t oid)) :
  In email (map User.email users) ->
  exists u, find_one (user_by_email email) users = Some u.
Proof.
  intros Hin. apply in_map_iff in Hin as (u & Heq & Hin).
  destruct (find_one (user_by_email email) users) as [u'|] eqn:Hf; [now exists u'|].
  apply (find_none _ _ Hf) in Hin. unfold user_by_email in Hin.
  rewrite Heq, String.eqb_refl in Hin. discriminate.
Qed.

Lemma find_email_none email (users : list (User.t oid)) :
  find_one (user_by_email email) users = None ->
  ~ In email (map User.email users).
Proof.
  intros Hf Hin. apply find_email_some in Hin as (u & Hu). congruence.
Qed.

Lemma find_studentId_some sid (users : list (User.t oid)) :
  In sid (flat_map studentId_of users) ->
  exists u, find_one (user_by_studentId sid) users = Some u.
Proof.
  intros Hin. apply in_flat_map in Hin as (u & Hin & Hsid).
  destruct (find_one (user_by_studentId sid) users) as [u'|] eqn:Hf;
    [now exists u'|].
  apply (find_none _ _ Hf) in Hin.
  unfold user_by_studentId in Hin. unfold studentId_of in Hsid.
  destruct (User.studentId u) as [s|]; [|destruct Hsid].
  destruct Hsid as [->|[]]. rewrite String.eqb_refl in Hin. discriminate.
Qed.

Lemma find_studentId_none sid (users : list (User.t oid)) :
  find_one (user_by_studentId sid) users = None ->
  ~ In sid (flat_map studentId_of users).
Proof.
  intros Hf Hin. apply find_studentId_some in Hin as (u & Hu). congruence.
Qed.

(** Uniqueness survives the insertion of a user whose email and student id
    are new. *)
Lemma unique_identities_insert (d : Db.t oid) (user : User.t oid) :
  unique_identities d ->
  ~ In (User.email user) (emails d) ->
  (forall s, User.studentId user = Some s -> ~ In s (studentIds d)) ->
  unique_identities (on_users (insert_one user) d).
Proof.
  intros [He Hs] Hemail Hsid. unfold unique_identities, emails, studentIds.
  simpl. unfold insert_one. rewrite map_app, flat_map_app. simpl.
  split; [now apply NoDup_snoc|].
  unfold studentId_of at 2.
  destruct (User.studentId user) as [s|] eqn:Hu; simpl.
  - apply NoDup_snoc; [exact Hs|]. now apply Hsid.
  - now rewrite app_nil_r.
Qed.

Lemma register_user_unique self user_data salt inserted_id now w :
  unique_identities (World.db w) ->
  unique_identities
    (World.db (snd (register_user self user_data salt inserted_id now w))).
Proof.
  intros Hu. unfold register_user, student_validation. run.
  destruct (UserData.name user_data) as [name|]; [|exact Hu].
  destruct (UserData.email user_data) as [email|]; [|exact Hu].
  destruct (UserData.password user_data) as [password|]; [|exact Hu].
  destruct (UserData.role user_data) as [role|]; [|exact Hu].
  destruct (find_one (user_by_email email) _) as [u|] eqn:Hemail; [exact Hu|].
  apply find_email_none in Hemail.
  destruct (String.eqb role _).
  - destruct (UserData.studentId user_data) as [sid|]; [|exact Hu].
    destruct (UserData.year user_data) as [year|]; [|exact Hu].
    red_world.
    destruct (find_one (user_by_studentId sid) _) as [u|] eqn:Hsid; [exact Hu|].
    apply find_studentId_none in Hsid. red_world.
    destruct (hashpw password salt) as [hashed|e]; [|exact Hu]. red_world.
    apply unique_identities_insert; [exact Hu|exact Hemail|].
    simpl. now intros s [= <-].
  - red_world.
    destruct (hashpw password salt) as [hashed|e]; [|exact Hu]. red_world.
    apply unique_identities_insert; [exact Hu|exact Hemail|].
    simpl. discriminate.
Qed.

(** C8: [register_user] keeps emails and student ids unique.  From a store
    where each occurs at most once, one call, and so any sequence of calls,
    leads to such a store.  A call whose email is in the store, or whose
    role is student and whose student id is in the store, does not succeed
    and leaves the world as it is; when the request has its required fields
    the error is "Email already exists", respectively "Student ID already
    exists". *)
Theorem register_user_keeps_identities_unique self w :
  unique_identities (World.db w) ->
  (forall calls, unique_identities (World.db (register_users self calls w)))
  /\ (forall user_data salt inserted_id now,
      let out := register_user self user_data salt inserted_id now w in
      unique_identities (World.db (snd out))
      /\ (forall email,
          UserData.email user_data = Some email ->
          In email (emails (World.db w)) ->
          (exists error, fst out = Return (false, ErrorDict error))
          /\ snd out = w
          /\ (UserData.name user_data <> None ->
              UserData.password user_data <> None ->
              UserData.role user_data <> None ->
              fst out = Return (false, ErrorDict "Email already exists")))
      /\ (forall sid,
          UserData.role user_data = Some (UserRole.value UserRole.STUDENT) ->
          UserData.studentId user_data = Some sid ->
          In sid (studentIds (World.db w)) ->
          (exists error, fst out = Return (false, ErrorDict error))
          /\ snd out = w
          /\ (forall email,
              UserData.name user_data <> None ->
              UserData.email user_data = Some email ->
              ~ In email (emails (World.db w)) ->
              UserData.password user_data <> None ->
              UserData.year user_data <> None ->
              fst out = Return (false, ErrorDict "Student ID already exists")))).
Proof.
  intros Hu. split.
  - intros calls. revert w Hu.
    induction calls as [|[[[user_data salt] inserted_id] now] rest IH];
      intros w Hu; simpl; [exact Hu|].
    apply IH. now apply register_user_unique.
  - intros user_data salt inserted_id now out.
    split; [now apply register_user_unique|]. split.
    + intros email Hemail Hin. subst out.
      apply find_email_some in Hin as (u & Hfound).
      unfold register_user. run. rewrite Hemail.
      destruct (UserData.name user_data) as [name|];
        destruct (UserData.password user_data) as [password|];
        destruct (UserData.role user_data) as [role|];
        try rewrite Hfound; simpl;
        (split; [eexists; reflexivity|]); (split; [reflexivity|]);
        intros H1 H2 H3; try reflexivity;
        first [now elim H1 | now elim H2 | now elim H3].
    + intros sid Hrole Hsid Hin. subst out.
      apply find_studentId_some in Hin as (u & Hfound).
      unfold register_user, student_validation. run. rewrite Hrole, Hsid.
      cbn [UserRole.value String.eqb Ascii.eqb Bool.eqb andb].
      destruct (UserData.name user_data) as [name|];
        destruct (UserData.email user_data) as [email|];
        destruct (UserData.password user_data) as [password|];
        try (simpl; (split; [eexists; reflexivity|]); (split; [reflexivity|]);
             intros e H1 H2 H3 H4 H5;
             first [now elim H1 | discriminate H2 | now elim H4]).
      destruct (find_one (user_by_email email) _) as [u'|] eqn:Hemail.
      * simpl. split; [eexists; reflexivity|]. split; [reflexivity|].
        intros e _ [= <-] Hnew _ _. elim Hnew.
        apply in_map_iff. exists u'.
        destruct (find_one_some _ _ Hemail) as [Hin' Hq].
        split; [|exact Hin']. now apply String.eqb_eq.
      * destruct (UserData.year user_data) as [year|]; red_world.
        -- rewrite Hfound. simpl. split; [eexists; reflexivity|].
           split; reflexivity.
        -- simpl. split; [eexists; reflexivity|]. split; [reflexivity|].
           intros e _ _ _ _ H. now elim H.
Qed.

(** ** Case analysis of a method *)

Ltac case_split :=
  repeat (first
            [ rewrite _publish_notification_run
            | match goal with
              | |- context [match ?x with _ => _ end] =>
                  lazymatch x with
                  | context [match _ with _ => _ end] => fail
                  | _ => destruct x
                  end
              end ]; red_world);
  try reflexivity.

(** ** The names of the clubs *)

Lemma find_club_name_some name (clubs : list (Club.t oid)) :
  In name (map Club.name clubs) ->
  exists c, find_one (club_by_name name) clubs = Some c.
Proof.
  intros Hin. apply in_map_iff in Hin as (c & Heq & Hin).
  destruct (find_one (club_by_name name) clubs) as [c'|] eqn:Hf; [now exists c'|].
  apply (find_none _ _ Hf) in Hin. unfold club_by_name in Hin.
  rewrite Heq, String.eqb_refl in Hin. discriminate.
Qed.

Lemma find_club_name_none name (clubs : list (Club.t oid)) :
  find_one (club_by_name name) clubs = None -> ~ In name (map Club.name clubs).
Proof.
  intros Hf Hin. apply find_club_name_some in Hin as (c & Hc). congruence.
Qed.

(** ** What a call can write, and what a failed call leaves *)

(** As [case_split], keeping the equation of each case. *)
Ltac case_split_eq :=
  repeat (first
            [ rewrite _publish_notification_run
            | match goal with
              | |- context [match ?x with _ => _ end] =>
                  lazymatch x with
                  | context [match _ with _ => _ end] => fail
                  | _ => destruct x eqn:?
                  end
              end ]; red_world).

(** X2: the collections an operation leaves alone.  Registering a user
    writes neither clubs nor events; creating a club or approving a
    membership writes neither users nor events; joining a club writes no
    event; creating an event writes no user; registering for an event or
    approving one writes neither users nor clubs. *)
Theorem operations_footprint self w :
  (forall user_data salt inserted_id now,
     let d' := World.db (snd (register_user self user_data salt inserted_id now w)) in
     Db.clubs d' = Db.clubs (World.db w) /\ Db.events d' = Db.events (World.db w))
  /\ (forall club_data creator_id inserted_id now,
      let d' := World.db (snd (create_club self club_data creator_id inserted_id now w)) in
      Db.users d' = Db.users (World.db w) /\ Db.events d' = Db.events (World.db w))
  /\ (forall club_id user_id now,
      Db.events (World.db (snd (join_club self club_id user_id now w)))
      = Db.events (World.db w))
  /\ (forall club_id member_id approver_id,
      let d' := World.db (snd (approve_membership self club_id member_id approver_id w)) in
      Db.users d' = Db.users (World.db w) /\ Db.events d' = Db.events (World.db w))
  /\ (forall event_data creator_id inserted_id now,
      Db.users (World.db (snd (create_event self event_data creator_id inserted_id now w)))
      = Db.users (World.db w))
  /\ (forall event_id user_id now,
      let d' := World.db (snd (register_for_event self event_id user_id now w)) in
      Db.users d' = Db.users (World.db w) /\ Db.clubs d' = Db.clubs (World.db w))
  /\ (forall event_id approver_data approver_id now,
      let d' := World.db (snd (approve_event self event_id approver_data approver_id now w)) in
      Db.users d' = Db.users (World.db w) /\ Db.clubs d' = Db.clubs (World.db w)).
Proof.
  repeat split; intros;
    unfold register_user, student_validation, create_club, join_club,
      approve_membership, _can_approve_membership, create_event,
      _can_create_event, register_for_event, approve_event;
    run; case_split.
Qed.


(** ** Invariants of the store *)

Lemma map_update_one {D E} (g : D -> E) (query : D -> bool) (upd : D -> D)
    (coll : list D) :
  (forall x, g (upd x) = g x) -> map g (update_one query upd coll) = map g coll.
Proof.
  intros Hg. induction coll as [|x rest IH]; simpl; [reflexivity|].
  destruct (query x); simpl; [now rewrite Hg|now rewrite IH].
Qed.

Lemma map_replace_one_found {D E} (g : D -> E) (query : D -> bool)
    (coll : list D) (doc doc' : D) :
  find_one query coll = Some doc -> g doc' = g doc ->
  map g (replace_one query doc' coll) = map g coll.
Proof.
  unfold find_one, replace_one. intros Hf Hg.
  induction coll as [|x rest IH]; simpl in *; [discriminate|].
  destruct (query x); simpl.
  - injection Hf as ->. now rewrite Hg.
  - now rewrite IH.
Qed.

Lemma Forall_update_one {D} (P : D -> Prop) (query : D -> bool) (upd : D -> D)
    (coll : list D) :
  (forall x, P x -> P (upd x)) -> Forall P coll -> Forall P (update_one query upd coll).
Proof.
  intros Hupd H. induction H as [|x rest Hx Hrest IH]; simpl; [constructor|].
  destruct (query x); constructor; auto.
Qed.

Lemma Forall_update_one_found {D} (P : D -> Prop) (query : D -> bool)
    (upd : D -> D) (coll : list D) (doc : D) :
  find_one query coll = Some doc -> (P doc -> P (upd doc)) ->
  Forall P coll -> Forall P (update_one query upd coll).
Proof.
  unfold find_one. intros Hf Hupd H.
  induction H as [|x rest Hx Hrest IH]; simpl in *; [constructor|].
  destruct (query x).
  - injection Hf as ->. constructor; auto.
  - constructor; auto.
Qed.

Lemma Forall_insert_one {D} (P : D -> Prop) (coll : list D) (doc : D) :
  P doc -> Forall P coll -> Forall P (insert_one doc coll).
Proof.
  intros Hdoc H. unfold insert_one. apply Forall_app. split; [assumption|].
  now constructor.
Qed.

Lemma approve_first_ids {E} (g : Membership.t oid -> E) member_id
    (members : list (Membership.t oid)) :
  (forall m, g (Membership.set_status ACTIVE m) = g m) ->
  map g (fst (approve_first member_id members)) = map g members.
Proof.
  intros Hg. induction members as [|m rest IH]; simpl; [reflexivity|].
  destruct (is_member member_id m); simpl; [now rewrite Hg|].
  destruct (approve_first member_id rest). simpl in *. now rewrite IH.
Qed.

(** X5: the names of the clubs.  Only [create_club] adds a name, and only a
    name that is not in the store, so club names stay unique; every other
    operation leaves the list of club names as it is. *)
Theorem club_names_stay_unique self w :
  (forall club_data creator_id inserted_id now,
     let d' := World.db (snd (create_club self club_data creator_id inserted_id now w)) in
     (NoDup (club_names (World.db w)) -> NoDup (club_names d'))
     /\ (club_names d' = club_names (World.db w)
         \/ exists name, ClubData.name club_data = Some name
              /\ ~ In name (club_names (World.db w))
              /\ club_names d' = (club_names (World.db w) ++ [name])%list))
  /\ (forall user_data salt inserted_id now,
      club_names (World.db (snd (register_user self user_data salt inserted_id now w)))
      = club_names (World.db w))
  /\ (forall club_id user_id now,
      club_names (World.db (snd (join_club self club_id user_id now w)))
      = club_names (World.db w))
  /\ (forall club_id member_id approver_id,
      club_names (World.db (snd (approve_membership self club_id member_id approver_id w)))
      = club_names (World.db w))
  /\ (forall event_data creator_id inserted_id now,
      club_names (World.db (snd (create_event self event_data creator_id inserted_id now w)))
      = club_names (World.db w))
  /\ (forall event_id user_id now,
      club_names (World.db (snd (register_for_event self event_id user_id now w)))
      = club_names (World.db w))
  /\ (forall event_id approver_data approver_id now,
      club_names (World.db (snd (approve_event self event_id approver_data approver_id now w)))
      = club_names (World.db w)).
Proof.
  split.
  - intros club_data creator_id inserted_id now d'.
    assert (Hnames : club_names d' = club_names (World.db w)
         \/ exists name, ClubData.name club_data = Some name
              /\ ~ In name (club_names (World.db w))
              /\ club_names d' = (club_names (World.db w) ++ [name])%list).
    { subst d'. unfold create_club. run. case_split_eq; try (now left).
      all: right; eexists; split; [reflexivity|];
        (split; [now apply find_club_name_none|]);
        unfold club_names, insert_one; red_world; now rewrite map_app. }
    split; [|exact Hnames].
    intros Hu. destruct Hnames as [->|(name & _ & Hnew & ->)]; [exact Hu|].
    now apply NoDup_snoc.
  - repeat split; intros;
      unfold club_names, register_user, student_validation, join_club,
        approve_membership, _can_approve_membership, create_event,
        _can_create_event, register_for_event, approve_event;
      run; case_split_eq;
      try reflexivity;
      try (apply map_update_one; reflexivity);
      try (eapply map_replace_one_found; [eassumption|reflexivity]).
Qed.

Lemma within_capacity_push (event : Event.t oid) r :
  is_full event = false -> within_capacity event ->
  within_capacity (Event.push_registeredParticipants r event).
Proof.
  unfold within_capacity, is_full, registration_count. simpl.
  rewrite length_app. simpl.
  intros Hfull Hcap Hpos. specialize (Hcap Hpos).
  apply andb_false_iff in Hfull as [Hfull|Hfull].
  - apply Z.ltb_ge in Hfull. lia.
  - apply Z.leb_gt in Hfull. lia.
Qed.

(** X6: registrations never exceed the capacity.  If every event with a
    positive [maxParticipants] holds at most that many registrations, the
    same is true after any call of any of the seven operations that write. *)
Theorem capacity_stays_respected self w :
  capacity_respected (World.db w) ->
  (forall event_id user_id now,
     capacity_respected
       (World.db (snd (register_for_event self event_id user_id now w))))
  /\ (forall event_data creator_id inserted_id now,
      capacity_respected
        (World.db (snd (create_event self event_data creator_id inserted_id now w))))
  /\ (forall event_id approver_data approver_id now,
      capacity_respected
        (World.db (snd (approve_event self event_id approver_data approver_id now w))))
  /\ (forall user_data salt inserted_id now,
      capacity_respected
        (World.db (snd (register_user self user_data salt inserted_id now w))))
  /\ (forall club_data creator_id inserted_id now,
      capacity_respected
        (World.db (snd (create_club self club_data creator_id inserted_id now w))))
  /\ (forall club_id user_id now,
      capacity_respected (World.db (snd (join_club self club_id user_id now w))))
  /\ (forall club_id member_id approver_id,
      capacity_respected
        (World.db (snd (approve_membership self club_id member_id approver_id w)))).
Proof.
  intros Hcap. unfold capacity_respected in *.
  repeat split; intros;
    unfold register_user, student_validation, create_club, join_club,
      approve_membership, _can_approve_membership, create_event,
      _can_create_event, register_for_event, approve_event;
    run; case_split_eq; try assumption;
    try (eapply Forall_update_one_found;
         [eassumption|now apply within_capacity_push|assumption]);
    try (apply Forall_insert_one;
         [unfold within_capacity, registration_count; simpl; lia|assumption]);
    try (apply Forall_update_one; [now intros x Hx|assumption]).
Qed.

Lemma not_registrant user_id (event : Event.t oid) :
  existsb (is_participant user_id) (Event.registeredParticipants event) = false ->
  ~ In user_id (registrants event).
Proof.
  intros Hex Hin. unfold registrants in Hin.
  apply in_map_iff in Hin as (p & Hid & Hin).
  assert (existsb (is_participant user_id) (Event.registeredParticipants event) = true);
    [|congruence].
  apply existsb_exists. exists p. split; [assumption|].
  now apply String.eqb_eq.
Qed.

Lemma has_membership_iff user_id club :
  existsb (is_member user_id) (Club.members club) = true
  <-> has_membership user_id club.
Proof.
  unfold has_membership. rewrite existsb_exists.
  split; intros (m & Hin & H); exists m; (split; [assumption|]);
    now apply String.eqb_eq.
Qed.

Lemma no_membership_iff user_id club :
  existsb (is_member user_id) (Club.members club) = false
  <-> no_membership user_id club.
Proof.
  unfold no_membership. split.
  - intros Hex m Hin Hid.
    assert (existsb (is_member user_id) (Club.members club) = true); [|congruence].
    apply has_membership_iff. now exists m.
  - intros Hnone. destruct (existsb _ _) eqn:Hex; [|reflexivity].
    apply has_membership_iff in Hex. destruct Hex as (m & Hin & Hid).
    now apply Hnone in Hin.
Qed.

Lemma not_member_id user_id club :
  existsb (is_member user_id) (Club.members club) = false ->
  ~ In user_id (member_ids club).
Proof.
  intros Hex Hin. unfold member_ids in Hin.
  apply in_map_iff in Hin as (m & Hid & Hin).
  apply no_membership_iff in Hex. now apply Hex in Hin.
Qed.

(** X7: at most one registration per event and user.  If no event holds two
    registrations of one user, none does after a call of
    [register_for_event] with a user id written as [str] of its object id,
    nor after a call of [create_event] or [approve_event]. *)
Theorem registrations_stay_unique self w :
  registrations_unique (World.db w) ->
  (forall event_id user_id now,
     (forall uo, ObjectId user_id = Some uo -> oid_str uo = user_id) ->
     registrations_unique
       (World.db (snd (register_for_event self event_id user_id now w))))
  /\ (forall event_data creator_id inserted_id now,
      registrations_unique
        (World.db (snd (create_event self event_data creator_id inserted_id now w))))
  /\ (forall event_id approver_data approver_id now,
      registrations_unique
        (World.db (snd (approve_event self event_id approver_data approver_id now w)))).
Proof.
  intros Hu. unfold registrations_unique in *.
  repeat split; intros;
    unfold create_event, _can_create_event, register_for_event, approve_event;
    run; case_split_eq; try assumption;
    try (apply Forall_insert_one; [constructor|assumption]);
    try (apply Forall_update_one; [now intros x Hx|assumption]).
  eapply Forall_update_one_found; [eassumption| |assumption].
  intros Hnodup. unfold registrants. simpl. rewrite map_app. simpl.
  apply NoDup_snoc; [exact Hnodup|].
  rewrite (H _ eq_refl). now apply not_registrant.
Qed.

(** X8: at most one membership per club and user.  If no club holds two
    memberships of one user, none does after a call of [join_club] with a
    user id written as [str] of its object id, nor after a call of
    [approve_membership], [create_club] or [create_event]. *)
Theorem memberships_stay_unique self w :
  memberships_unique (World.db w) ->
  (forall club_id user_id now,
     (forall uo, ObjectId user_id = Some uo -> oid_str uo = user_id) ->
     memberships_unique (World.db (snd (join_club self club_id user_id now w))))
  /\ (forall club_id member_id approver_id,
      memberships_unique
        (World.db (snd (approve_membership self club_id member_id approver_id w))))
  /\ (forall club_data creator_id inserted_id now,
      memberships_unique
        (World.db (snd (create_club self club_data creator_id inserted_id now w))))
  /\ (forall event_data creator_id inserted_id now,
      memberships_unique
        (World.db (snd (create_event self event_data creator_id inserted_id now w)))).
Proof.
  intros Hu. unfold memberships_unique in *.
  assert (Hjoin : forall q user_id uo now club,
    find_one q (Db.clubs (World.db w)) = Some club ->
    existsb (is_member user_id) (Club.members club) = false ->
    oid_str uo = user_id ->
    Forall (fun club => NoDup (member_ids club))
      (update_one q (Club.push_members (Membership.mk uo "member"
         (MembershipStatus.value MembershipStatus.PENDING) now))
         (Db.clubs (World.db w)))).
  { intros q user_id uo now club Hfound Hnone Hid.
    eapply Forall_update_one_found; [eassumption| |assumption].
    intros Hnodup. unfold member_ids. simpl. rewrite map_app. simpl.
    apply NoDup_snoc; [exact Hnodup|]. rewrite Hid. now apply not_member_id. }
  repeat split; intros;
    unfold create_club, join_club, approve_membership, _can_approve_membership,
      create_event, _can_create_event;
    run; case_split_eq; try assumption;
    try (eapply Hjoin; eauto; fail);
    try (apply Forall_insert_one; [constructor|assumption]);
    try (apply Forall_update_one; [now intros x Hx|assumption]).
  all: eapply Forall_update_one_found; [eassumption| |assumption].
  all: intros Hnodup; unfold member_ids; simpl.
  all: match goal with
       | H : approve_first ?id ?ms = (?l, _) |- _ =>
           replace l with (fst (approve_first id ms)) by now rewrite H
       end.
  all: now rewrite approve_first_ids.
Qed.

Lemma approve_first_Forall (P : Membership.t oid -> Prop) member_id
    (members : list (Membership.t oid)) :
  (forall m, P m -> P (Membership.set_status ACTIVE m)) ->
  Forall P members -> Forall P (fst (approve_first member_id members)).
Proof.
  intros Hset H. induction H as [|m rest Hm Hrest IH]; simpl; [constructor|].
  destruct (is_member member_id m); simpl; [constructor; auto|].
  destruct (approve_first member_id rest). simpl in *. now constructor.
Qed.

(** X9: no operation makes an officer.  [join_club] stores the role
    "member" and no operation changes the role of a membership; so if every
    membership of the store has the role "member", this is still so after
    any call of any of the seven operations that write. *)
Theorem no_operation_makes_an_officer self w :
  plain_members (World.db w) ->
  (forall club_id user_id now,
     plain_members (World.db (snd (join_club self club_id user_id now w))))
  /\ (forall club_id member_id approver_id,
      plain_members
        (World.db (snd (approve_membership self club_id member_id approver_id w))))
  /\ (forall club_data creator_id inserted_id now,
      plain_members
        (World.db (snd (create_club self club_data creator_id inserted_id now w))))
  /\ (forall event_data creator_id inserted_id now,
      plain_members
        (World.db (snd (create_event self event_data creator_id inserted_id now w))))
  /\ (forall user_data salt inserted_id now,
      plain_members
        (World.db (snd (register_user self user_data salt inserted_id now w))))
  /\ (forall event_id user_id now,
      plain_members
        (World.db (snd (register_for_event self event_id user_id now w))))
  /\ (forall event_id approver_data approver_id now,
      plain_members
        (World.db (snd (approve_event self event_id approver_data approver_id now w)))).
Proof.
  intros Hplain. unfold plain_members in *.
  repeat split; intros.
  all: unfold register_user, student_validation, create_club, join_club,
      approve_membership, _can_approve_membership, create_event,
      _can_create_event, register_for_event, approve_event;
    run; case_split_eq; try assumption;
    try (apply Forall_insert_one; [constructor|assumption]);
    try (apply Forall_update_one; [|assumption]; intros x Hx;
         first [ exact Hx
               | simpl; apply Forall_app; split;
                 [exact Hx|now repeat constructor] ]).
  all: eapply Forall_update_one_found; [eassumption| |assumption].
  all: intros Hroles; simpl.
  all: match goal with
       | H : approve_first ?id ?ms = (?l, _) |- _ =>
           replace l with (fst (approve_first id ms)) by now rewrite H
       end.
  all: now apply approve_first_Forall.
Qed.

(** X10: accounts are never changed.  Apart from [clubs], no key of a user
    document is written after the insertion: no operation changes an email,
    a password hash, a role or the active flag, and none removes a user.
    [register_user] appends at most one account and every other operation
    leaves the accounts as they are. *)
Theorem accounts_are_never_changed self w :
  (forall user_data salt inserted_id now,
     let d' := World.db (snd (register_user self user_data salt inserted_id now w)) in
     accounts d' = accounts (World.db w)
     \/ exists user, accounts d' = (accounts (World.db w) ++ [user_identity user])%list)
  /\ (forall club_data creator_id inserted_id now,
      accounts (World.db (snd (create_club self club_data creator_id inserted_id now w)))
      = accounts (World.db w))
  /\ (forall club_id user_id now,
      accounts (World.db (snd (join_club self club_id user_id now w)))
      = accounts (World.db w))
  /\ (forall club_id member_id approver_id,
      accounts (World.db (snd (approve_membership self club_id member_id approver_id w)))
      = accounts (World.db w))
  /\ (forall event_data creator_id inserted_id now,
      accounts (World.db (snd (create_event self event_data creator_id inserted_id now w)))
      = accounts (World.db w))
  /\ (forall event_id user_id now,
      accounts (World.db (snd (register_for_event self event_id user_id now w)))
      = accounts (World.db w))
  /\ (forall event_id approver_data approver_id now,
      accounts (World.db (snd (approve_event self event_id approver_data approver_id now w)))
      = accounts (World.db w)).
Proof.
  split.
  - intros. subst d'. unfold register_user, student_validation. run.
    case_split_eq; try (now left).
    all: right; eexists; unfold accounts, insert_one; red_world;
      rewrite map_app; reflexivity.
  - repeat split; intros;
      unfold accounts, create_club, join_club, approve_membership,
        _can_approve_membership, create_event, _can_create_event,
        register_for_event, approve_event;
      run; case_split_eq; try reflexivity;
      apply map_update_one; reflexivity.
Qed.

(** X11: clubs and events are never removed, and what describes them never
    changes.  Apart from [members] and [events], no key of a club document
    is written after the insertion (so no operation deactivates a club);
    apart from the status, the approval and the registrations, no key of an
    event document is.  [create_club] appends at most one club,
    [create_event] at most one event. *)
Theorem clubs_and_events_are_never_removed self w :
  (forall club_data creator_id inserted_id now,
     let d' := World.db (snd (create_club self club_data creator_id inserted_id now w)) in
     (club_descriptions d' = club_descriptions (World.db w)
      \/ exists club,
           club_descriptions d'
           = (club_descriptions (World.db w) ++ [club_description club])%list)
     /\ event_descriptions d' = event_descriptions (World.db w))
  /\ (forall event_data creator_id inserted_id now,
      let d' := World.db (snd (create_event self event_data creator_id inserted_id now w)) in
      club_descriptions d' = club_descriptions (World.db w)
      /\ (event_descriptions d' = event_descriptions (World.db w)
          \/ exists event,
               event_descriptions d'
               = (event_descriptions (World.db w) ++ [event_description event])%list))
  /\ (forall user_data salt inserted_id now,
      let d' := World.db (snd (register_user self user_data salt inserted_id now w)) in
      club_descriptions d' = club_descriptions (World.db w)
      /\ event_descriptions d' = event_descriptions (World.db w))
  /\ (forall club_id user_id now,
      let d' := World.db (snd (join_club self club_id user_id now w)) in
      club_descriptions d' = club_descriptions (World.db w)
      /\ event_descriptions d' = event_descriptions (World.db w))
  /\ (forall club_id member_id approver_id,
      let d' := World.db (snd (approve_membership self club_id member_id approver_id w)) in
      club_descriptions d' = club_descriptions (World.db w)
      /\ event_descriptions d' = event_descriptions (World.db w))
  /\ (forall event_id user_id now,
      let d' := World.db (snd (register_for_event self event_id user_id now w)) in
      club_descriptions d' = club_descriptions (World.db w)
      /\ event_descriptions d' = event_descriptions (World.db w))
  /\ (forall event_id approver_data approver_id now,
      let d' := World.db (snd (approve_event self event_id approver_data approver_id now w)) in
      club_descriptions d' = club_descriptions (World.db w)
      /\ event_descriptions d' = event_descriptions (World.db w)).
Proof.
  split; [|split].
  - intros. subst d'. unfold create_club. run.
    case_split_eq; (split; [|reflexivity]); try (now left).
    all: right; eexists; unfold club_descriptions, insert_one; red_world;
      rewrite map_app; reflexivity.
  - intros. subst d'. unfold create_event, _can_create_event. run.
    case_split_eq; (split; [try reflexivity|try (now left)]);
      try (apply map_update_one; reflexivity).
    all: right; eexists; unfold event_descriptions, insert_one; red_world;
      rewrite map_app; reflexivity.
  - repeat split; intros; try subst d';
      unfold club_descriptions, event_descriptions, register_user,
        student_validation, join_club, approve_membership,
        _can_approve_membership, register_for_event, approve_event;
      run; case_split_eq; try reflexivity;
      try (apply map_update_one; reflexivity);
      try (eapply map_replace_one_found; [eassumption|reflexivity]).
Qed.

(** ** Logging in *)

Context {BC : Bcrypt} {RX : Regex}.

Lemma find_one_insert_one_new {D} (query : D -> bool) (coll : list D) (doc : D) :
  find_one query coll = None -> query doc = true ->
  find_one query (insert_one doc coll) = Some doc.
Proof.
  unfold find_one, insert_one. intros Hnone Hq.
  induction coll as [|x rest IH]; simpl in *; [now rewrite Hq|].
  destruct (query x); [discriminate|auto].
Qed.

(** How [login_user] runs when both keys are given. *)
Lemma login_user_run self now email password w :
  login_user self (Credentials.mk (Some email) (Some password)) now w =
    match find_one (user_by_email email) (Db.users (World.db w)) with
    | None => (Return (false, ErrorDict "Invalid credentials"), w)
    | Some user =>
        if User.isActive user then
          match checkpw password (User.password user) with
          | Some true =>
              (Return (true,
                       UserDict "Login successful"
                         (_generate_token self (oid_str (User._id user))
                            (User.email user) (User.role user) now)
                         (_sanitize_user user)), w)
          | Some false => (Return (false, ErrorDict "Invalid credentials"), w)
          | None => (Return (false, ErrorDict "Login failed: Invalid salt"), w)
          end
        else (Return (false, ErrorDict "Invalid credentials"), w)
    end.
Proof.
  unfold login_user. run. simpl.
  destruct (find_one _ _) as [user|]; [|reflexivity].
  destruct (User.isActive user); [|reflexivity]. simpl.
  destruct (checkpw _ _) as [[|]|]; reflexivity.
Qed.


(** What a successful [register_user] has done. *)
Lemma register_user_success self user_data salt inserted_id now payload w w' :
  register_user self user_data salt inserted_id now w = (Return (true, payload), w') ->
  exists name email password role hashed user,
    UserData.name user_data = Some name
    /\ UserData.email user_data = Some email
    /\ UserData.password user_data = Some password
    /\ UserData.role user_data = Some role
    /\ hashpw password salt = Return hashed
    /\ find_one (user_by_email email) (Db.users (World.db w)) = None
    /\ w' = with_user user w
    /\ user_identity user =
         (inserted_id, name, email, hashed, role, true, now,
          User.studentId user, User.year user,
          get (UserData.department user_data) "")
    /\ User.clubs user = []
    /\ payload =
         UserDict "User registered successfully"
           (_generate_token self (oid_str inserted_id) email role now)
           (_sanitize_user user).
Proof.
  unfold register_user, student_validation. run.
  case_split_eq; try discriminate; intros [= <- <-];
    do 6 eexists; repeat split; eassumption.
Qed.

(** X13: registration and login compose.  After a successful
    [register_user], [login_user] with the email and the password of the
    registration succeeds and returns the same account, provided bcrypt
    accepts the password for the hash it made of it; with a password that
    bcrypt rejects for that hash, it fails with "Invalid credentials". *)
Theorem register_then_login self user_data salt inserted_id now payload w w'
    email password :
  register_user self user_data salt inserted_id now w = (Return (true, payload), w') ->
  UserData.email user_data = Some email ->
  UserData.password user_data = Some password ->
  exists user token hashed,
    hashpw password salt = Return hashed
    /\ payload = UserDict "User registered successfully" token user
    /\ (checkpw password hashed = Some true ->
        forall now', exists token',
          login_user self (Credentials.mk (Some email) (Some password)) now' w'
          = (Return (true, UserDict "Login successful" token' user), w'))
    /\ (forall wrong,
        checkpw wrong hashed = Some false ->
        forall now',
          login_user self (Credentials.mk (Some email) (Some wrong)) now' w'
          = (Return (false, ErrorDict "Invalid credentials"), w')).
Proof.
  intros Hreg Hemail Hpassword.
  apply register_user_success in Hreg
    as (name & email' & password' & role & hashed & user
        & _ & He & Hp & _ & Hhashed & Hnew & -> & Hid & _ & ->).
  rewrite Hemail in He. injection He as <-.
  rewrite Hpassword in Hp. injection Hp as <-.
  injection Hid as Hid Hname Huemail Hhash Hrole Hactive _.
  assert (Hfound : find_one (user_by_email email)
                     (Db.users (World.db (with_user user w))) = Some user).
  { unfold with_user. red_world. apply find_one_insert_one_new; [exact Hnew|].
    unfold user_by_email. rewrite Huemail. apply String.eqb_refl. }
  do 3 eexists. split; [exact Hhashed|]. split; [reflexivity|]. split.
  - intros Hcheck now'. rewrite login_user_run, Hfound, Hactive, Hhash, Hcheck.
    eexists. reflexivity.
  - intros wrong Hcheck now'.
    now rewrite login_user_run, Hfound, Hactive, Hhash, Hcheck.
Qed.


(** ** The methods that only read *)



(** X18: the club references of the users always hold object ids.
    [join_club] stores the club id it was given only after [ObjectId] has
    accepted it, and nothing else writes references; so from a store where
    every reference holds an id that bson accepts, every one of the seven
    operations that write leads to such a store. *)
Theorem club_refs_stay_valid self w :
  club_refs_valid (World.db w) ->
  (forall club_id user_id now,
     club_refs_valid (World.db (snd (join_club self club_id user_id now w))))
  /\ (forall user_data salt inserted_id now,
      club_refs_valid
        (World.db (snd (register_user self user_data salt inserted_id now w))))
  /\ (forall club_data creator_id inserted_id now,
      club_refs_valid
        (World.db (snd (create_club self club_data creator_id inserted_id now w))))
  /\ (forall club_id member_id approver_id,
      club_refs_valid
        (World.db (snd (approve_membership self club_id member_id approver_id w))))
  /\ (forall event_data creator_id inserted_id now,
      club_refs_valid
        (World.db (snd (create_event self event_data creator_id inserted_id now w))))
  /\ (forall event_id user_id now,
      club_refs_valid
        (World.db (snd (register_for_event self event_id user_id now w))))
  /\ (forall event_id approver_data approver_id now,
      club_refs_valid
        (World.db (snd (approve_event self event_id approver_data approver_id now w)))).
Proof.
  intros Hvalid.
  repeat split; intros.
  all: unfold club_refs_valid in *;
    unfold register_user, student_validation, create_club, join_club,
      approve_membership, _can_approve_membership, create_event,
      _can_create_event, register_for_event, approve_event;
    run; case_split_eq; try assumption;
    try (apply Forall_insert_one; [constructor|assumption]).
  all: apply Forall_update_one; [|assumption]; intros x Hx; simpl.
  all: apply Forall_app; split; [exact Hx|].
  all: constructor; [|constructor]; simpl; congruence.
Qed.

(** ** Pending approvals *)






(** ** Listing clubs and events *)

Lemma filter_all {D} (p : D -> bool) (l : list D) :
  (forall x, p x = true) -> filter p l = l.
Proof.
  intros Hp. induction l as [|x l IH]; simpl; [reflexivity|].
  now rewrite Hp, IH.
Qed.

(** The filters of [get_clubs] that set no condition: no value, the empty
    string and, for the category, "all". *)
Lemma category_query_none category search :
  category = None \/ category = Some "" \/ category = Some "all" ->
  category_query (Some (ClubFilters.mk category search)) = None.
Proof. intros [-> | [-> | ->]]; reflexivity. Qed.

Lemma category_query_some c search :
  c <> "" -> c <> "all" ->
  category_query (Some (ClubFilters.mk (Some c) search)) = Some c.
Proof.
  intros Hempty Hall. unfold category_query, truthy. simpl.
  apply String.eqb_neq in Hempty, Hall. now rewrite Hempty, Hall.
Qed.

Lemma search_query_none category search :
  search = None \/ search = Some "" ->
  search_query (Some (ClubFilters.mk category search)) = None.
Proof. intros [-> | ->]; reflexivity. Qed.

Lemma search_query_some category pattern :
  pattern <> "" ->
  search_query (Some (ClubFilters.mk category (Some pattern))) = Some pattern.
Proof.
  intros Hempty. unfold search_query, truthy. simpl.
  apply String.eqb_neq in Hempty. now rewrite Hempty.
Qed.

(** X22: [get_clubs].  Without filters it returns every active club, in
    the order of the store, and never a club that is not active.  A category
    that is absent, empty or "all" and a search that is absent or empty set
    no condition; another category keeps the active clubs of exactly that
    category; a search keeps the active clubs whose name or description the
    pattern matches; and a pattern the store cannot compile fails the call
    with the message of the store. *)
Theorem get_clubs_spec self w :
  let active := filter (fun club => Club.isActive club) (Db.clubs (World.db w)) in
  get_clubs self None w = (Return (true, Payload (map club_view active)), w)
  /\ (forall category search,
      category = None \/ category = Some "" \/ category = Some "all" ->
      search = None \/ search = Some "" ->
      get_clubs self (Some (ClubFilters.mk category search)) w
      = (Return (true, Payload (map club_view active)), w))
  /\ (forall c search,
      c <> "" -> c <> "all" ->
      search = None \/ search = Some "" ->
      get_clubs self (Some (ClubFilters.mk (Some c) search)) w
      = (Return (true,
                 Payload (map club_view
                            (filter (fun club => String.eqb (Club.category club) c)
                               active))), w))
  /\ (forall category pattern,
      category = None \/ category = Some "" \/ category = Some "all" ->
      pattern <> "" ->
      regex_error pattern = None ->
      get_clubs self (Some (ClubFilters.mk category (Some pattern))) w
      = (Return (true,
                 Payload (map club_view
                            (filter (fun club =>
                                       regex_search pattern (Club.name club)
                                       || regex_search pattern (Club.description club))
                               active))), w))
  /\ (forall category pattern message,
      pattern <> "" ->
      regex_error pattern = Some message ->
      get_clubs self (Some (ClubFilters.mk category (Some pattern))) w
      = (Return (false, ErrorReply ("Failed to get clubs: " ++ message)), w))
  /\ (forall filters views w',
      get_clubs self filters w = (Return (true, Payload views), w') ->
      forall view, In view views ->
        In (ClubView.doc view) (Db.clubs (World.db w))
        /\ Club.isActive (ClubView.doc view) = true
        /\ view = club_view (ClubView.doc view)).
Proof.
  intros active. subst active.
  assert (Hfilter : forall p : Club.t oid -> bool,
    filter (fun club => Club.isActive club && true && p club) (Db.clubs (World.db w))
    = filter p (filter (fun club => Club.isActive club) (Db.clubs (World.db w)))).
  { intros p. induction (Db.clubs (World.db w)) as [|c l IH]; simpl; [reflexivity|].
    destruct (Club.isActive c); simpl; [|exact IH].
    destruct (p c); now rewrite IH. }
  assert (Hnone : get_clubs self None w
    = (Return (true, Payload (map club_view
         (filter (fun club => Club.isActive club) (Db.clubs (World.db w))))), w)).
  { unfold get_clubs. run. simpl. unfold clubs_query.
    rewrite (Hfilter (fun _ => true)). now rewrite filter_all. }
  split; [exact Hnone|]. split; [|split; [|split; [|split]]].
  - intros category search Hc Hs. rewrite <- Hnone.
    unfold get_clubs. now rewrite category_query_none, search_query_none.
  - intros c search Hempty Hall Hs. unfold get_clubs.
    rewrite category_query_some, search_query_none by assumption.
    run. simpl. unfold clubs_query.
    rewrite filter_ext
      with (g := fun club => Club.isActive club && true
                             && String.eqb (Club.category club) c).
    + now rewrite Hfilter.
    + intros club. destruct (Club.isActive club); simpl; [|reflexivity].
      now rewrite andb_true_r.
  - intros category pattern Hc Hempty Hok. unfold get_clubs.
    rewrite category_query_none, search_query_some by assumption.
    run. simpl. rewrite Hok. unfold clubs_query.
    now rewrite (Hfilter (fun club =>
                   regex_search pattern (Club.name club)
                   || regex_search pattern (Club.description club))).
  - intros category pattern message Hempty Hbad. unfold get_clubs.
    rewrite search_query_some by assumption. run. simpl. now rewrite Hbad.
  - intros filters views w'. unfold get_clubs. run.
    destruct (option_map regex_error (search_query filters)) as [[message|]|];
      try discriminate; intros [= <- <-] view Hin;
      apply in_map_iff in Hin as (club & <- & Hin);
      apply filter_In in Hin as [Hin Hq];
      unfold clubs_query in Hq;
      apply andb_true_iff in Hq as [Hq _];
      apply andb_true_iff in Hq as [Hq _]; now repeat split.
Qed.

(** X23: [get_events].  Without filters it returns every event, in the
    order of the store.  A status keeps the events of exactly that status;
    "upcoming" counts only when it is the string "true", and then keeps the
    events dated now or later.  These do not call [ObjectId].  A club id
    does: in the module as shipped, a filter with a club id that is not
    empty fails the call with the [NameError], whatever the id. *)
Theorem get_events_spec self now w :
  get_events self None now w
    = (Return (true, Payload (map event_view (Db.events (World.db w)))), w)
  /\ (forall s clubId upcoming,
      s <> "" ->
      clubId = None \/ clubId = Some "" ->
      upcoming <> Some "true" ->
      get_events self (Some (EventFilters.mk (Some s) clubId upcoming)) now w
      = (Return (true,
                 Payload (map event_view
                            (filter (fun event => String.eqb (Event.status event) s)
                               (Db.events (World.db w))))), w))
  /\ (forall status clubId,
      status = None \/ status = Some "" ->
      clubId = None \/ clubId = Some "" ->
      get_events self (Some (EventFilters.mk status clubId (Some "true"))) now w
      = (Return (true,
                 Payload (map event_view
                            (filter (fun event => now <=? Event.date event)
                               (Db.events (World.db w))))), w))
  /\ (forall status clubId upcoming,
      clubId <> "" ->
      get_events (NS := as_shipped) self
        (Some (EventFilters.mk status (Some clubId) upcoming)) now w
      = (Return (false,
                 ErrorReply "Failed to get events: name 'ObjectId' is not defined"),
         w)).
Proof.
  split; [|split; [|split]].
  - unfold get_events. run. simpl. unfold events_query. simpl.
    now rewrite filter_all.
  - intros s clubId upcoming Hempty Hclub Hup.
    apply String.eqb_neq in Hempty.
    unfold get_events, truthy. run. simpl. rewrite Hempty. simpl.
    assert (Hsince : match upcoming with
                     | Some u => if String.eqb u "true" then Some now else None
                     | None => None
                     end = None).
    { destruct upcoming as [u|]; [|reflexivity].
      destruct (String.eqb u "true") eqn:Hu; [|reflexivity].
      apply String.eqb_eq in Hu. now subst u. }
    rewrite Hsince.
    destruct Hclub as [-> | ->]; simpl; unfold events_query;
      do 5 f_equal; apply filter_ext; intros event;
      now rewrite !andb_true_r.
  - intros status clubId Hs Hc. unfold get_events, truthy. run.
    destruct Hs as [-> | ->]; destruct Hc as [-> | ->]; simpl; unfold events_query;
      do 5 f_equal; apply filter_ext; intros event; reflexivity.
  - intros status clubId upcoming Hempty. apply String.eqb_neq in Hempty.
    unfold get_events, truthy. run. simpl. now rewrite Hempty.
Qed.

(** ** Registration of users, and of participants *)



(** ** The module as shipped

    [ObjectId] is unbound.  The first call of it in a method raises
    [NameError]; a method with a [try] has written nothing by then and
    reports the exception as its own failure, and the two checks, which have
    no [try], raise. *)

Lemma ObjectId_unbound s w :
  ObjectId_ (NS := as_shipped) s w = (Raise (NameError "ObjectId"), w).
Proof. reflexivity. Qed.

Lemma _can_approve_membership_unbound club user_id w :
  _can_approve_membership (NS := as_shipped) club user_id w
  = (Raise (NameError "ObjectId"), w).
Proof. unfold _can_approve_membership, bind. now rewrite ObjectId_unbound. Qed.

Lemma _can_create_event_unbound club user_id w :
  _can_create_event (NS := as_shipped) club user_id w
  = (Raise (NameError "ObjectId"), w).
Proof. unfold _can_create_event, bind. now rewrite ObjectId_unbound. Qed.

Lemma create_club_unbound self club_data creator_id inserted_id now w :
  create_club (NS := as_shipped) self club_data creator_id inserted_id now w
  = (Return (false,
             ErrorDict "Failed to create club: name 'ObjectId' is not defined"), w).
Proof. unfold create_club, try_except, bind. now rewrite ObjectId_unbound. Qed.

Lemma join_club_unbound self club_id user_id now w :
  join_club (NS := as_shipped) self club_id user_id now w
  = (Return (false,
             ErrorDict "Failed to join club: name 'ObjectId' is not defined"), w).
Proof. unfold join_club, try_except, bind. now rewrite ObjectId_unbound. Qed.

Lemma approve_membership_unbound self club_id member_id approver_id w :
  approve_membership (NS := as_shipped) self club_id member_id approver_id w
  = (Return (false,
             ErrorDict "Failed to approve membership: name 'ObjectId' is not defined"),
     w).
Proof. unfold approve_membership, try_except, bind. now rewrite ObjectId_unbound. Qed.

Lemma register_for_event_unbound self event_id user_id now w :
  register_for_event (NS := as_shipped) self event_id user_id now w
  = (Return (false,
             ErrorDict "Failed to register for event: name 'ObjectId' is not defined"),
     w).
Proof. unfold register_for_event, try_except, bind. now rewrite ObjectId_unbound. Qed.

Lemma approve_event_unbound self event_id approver_data approver_id now w :
  approve_event (NS := as_shipped) self event_id approver_data approver_id now w
  = (Return (false,
             ErrorDict "Failed to approve event: name 'ObjectId' is not defined"), w).
Proof. unfold approve_event, try_except, bind. now rewrite ObjectId_unbound. Qed.

Lemma get_user_profile_unbound self user_id w :
  get_user_profile (NS := as_shipped) self user_id w
  = (Return (false,
             ErrorReply "Failed to get profile: name 'ObjectId' is not defined"), w).
Proof. unfold get_user_profile, try_except, bind. now rewrite ObjectId_unbound. Qed.

(** [create_event] looks at its required fields before it calls
    [ObjectId]. *)
Lemma create_event_unbound self event_data creator_id inserted_id now w :
  create_event (NS := as_shipped) self event_data creator_id inserted_id now w
  = match EventData.title event_data, EventData.description event_data,
          EventData.clubId event_data, EventData.eventType event_data,
          EventData.venue event_data, EventData.date event_data,
          EventData.startTime event_data, EventData.endTime event_data with
    | Some _, Some _, Some _, Some _, Some _, Some _, Some _, Some _ =>
        (Return (false,
                 ErrorDict "Failed to create event: name 'ObjectId' is not defined"),
         w)
    | _, _, _, _, _, _, _, _ =>
        (Return (false, ErrorDict "Missing required fields"), w)
    end.
Proof.
  unfold create_event, try_except.
  destruct (EventData.title event_data), (EventData.description event_data),
    (EventData.clubId event_data), (EventData.eventType event_data),
    (EventData.venue event_data), (EventData.date event_data),
    (EventData.startTime event_data), (EventData.endTime event_data);
    reflexivity.
Qed.

(** X19: [create_event] checks its eight required fields before anything
    else.  A request that lacks one of them gets "Missing required fields",
    whether [ObjectId] is bound or not.  A request that has them all reaches
    the first [ObjectId(...)]: in the module as shipped it gets "Failed to
    create event" with the message of the [NameError].  Either way nothing
    is written: as shipped, [create_event] never stores an event. *)
Theorem create_event_as_shipped self event_data creator_id inserted_id now w :
  (EventData.title event_data = None \/ EventData.description event_data = None
   \/ EventData.clubId event_data = None \/ EventData.eventType event_data = None
   \/ EventData.venue event_data = None \/ EventData.date event_data = None
   \/ EventData.startTime event_data = None \/ EventData.endTime event_data = None ->
   create_event self event_data creator_id inserted_id now w
   = (Return (false, ErrorDict "Missing required fields"), w))
  /\ (EventData.title event_data <> None ->
      EventData.description event_data <> None ->
      EventData.clubId event_data <> None ->
      EventData.eventType event_data <> None ->
      EventData.venue event_data <> None ->
      EventData.date event_data <> None ->
      EventData.startTime event_data <> None ->
      EventData.endTime event_data <> None ->
      create_event (NS := as_shipped) self event_data creator_id inserted_id now w
      = (Return (false,
                 ErrorDict "Failed to create event: name 'ObjectId' is not defined"),
         w))
  /\ (forall answer w',
      create_event (NS := as_shipped) self event_data creator_id inserted_id now w
      = (Return answer, w') ->
      fst answer = false /\ w' = w).
Proof.
  split; [|split].
  - intros Hmissing. unfold create_event, try_except.
    destruct (EventData.title event_data), (EventData.description event_data),
      (EventData.clubId event_data), (EventData.eventType event_data),
      (EventData.venue event_data), (EventData.date event_data),
      (EventData.startTime event_data), (EventData.endTime event_data);
      try reflexivity.
    repeat (destruct Hmissing as [Hmissing|Hmissing]; [discriminate|]).
    discriminate.
  - intros Ht Hd Hc He Hv Hda Hs Hen. rewrite create_event_unbound.
    destruct (EventData.title event_data); [|now elim Ht].
    destruct (EventData.description event_data); [|now elim Hd].
    destruct (EventData.clubId event_data); [|now elim Hc].
    destruct (EventData.eventType event_data); [|now elim He].
    destruct (EventData.venue event_data); [|now elim Hv].
    destruct (EventData.date event_data); [|now elim Hda].
    destruct (EventData.startTime event_data); [|now elim Hs].
    destruct (EventData.endTime event_data); [|now elim Hen].
    reflexivity.
  - intros answer w'. rewrite create_event_unbound.
    destruct (EventData.title event_data), (EventData.description event_data),
      (EventData.clubId event_data), (EventData.eventType event_data),
      (EventData.venue event_data), (EventData.date event_data),
      (EventData.startTime event_data), (EventData.endTime event_data);
      intros [= <- <-]; now split.
Qed.


(** ** Membership statuses across the operations *)

(** As shipped no call writes to the clubs: [register_user] writes users
    only, the methods that read write nothing, and the others fail at their
    first [ObjectId(...)]. *)
Lemma after_clubs_as_shipped self (c : invocation) w :
  Db.clubs (World.db (after (NS := as_shipped) self c w)) = Db.clubs (World.db w).
Proof.
  destruct c; cbn [after].
  - unfold register_user, student_validation. run. case_split.
  - unfold login_user. run. case_split.
  - now rewrite get_user_profile_unbound.
  - now rewrite create_club_unbound.
  - now rewrite join_club_unbound.
  - now rewrite approve_membership_unbound.
  - unfold get_clubs. run. case_split.
  - rewrite create_event_unbound.
    destruct (EventData.title event_data), (EventData.description event_data),
      (EventData.clubId event_data), (EventData.eventType event_data),
      (EventData.venue event_data), (EventData.date event_data),
      (EventData.startTime event_data), (EventData.endTime event_data);
      reflexivity.
  - now rewrite register_for_event_unbound.
  - now rewrite approve_event_unbound.
  - unfold get_events. run. case_split.
  - reflexivity.
Qed.

Lemma after_all_clubs_as_shipped self (calls : list invocation) w :
  Db.clubs (World.db (after_all (NS := as_shipped) self calls w))
  = Db.clubs (World.db w).
Proof.
  revert w. induction calls as [|c rest IH]; intros w; [reflexivity|].
  cbn [after_all]. now rewrite IH, after_clubs_as_shipped.
Qed.

(** C3: membership status transitions are limited to pending -> active and
    pending -> rejected, and a rejected membership is never set to active.
    In the module as shipped no call of any method changes a membership:
    after any sequence of calls, [approve_membership] among them, every
    membership is at its place with the status it had, so a membership that
    is rejected is rejected still and never active. *)
Theorem rejected_membership_stays_rejected self w i j m :
  membership_at (World.db w) i j = Some m ->
  forall calls : list invocation,
    let w' := after_all (NS := as_shipped) self calls w in
    membership_at (World.db w') i j = Some m
    /\ (Membership.status m = MembershipStatus.value MembershipStatus.REJECTED ->
        option_map Membership.status (membership_at (World.db w') i j)
        = Some (MembershipStatus.value MembershipStatus.REJECTED)
        /\ option_map Membership.status (membership_at (World.db w') i j)
           <> Some (MembershipStatus.value MembershipStatus.ACTIVE)).
Proof.
  intros Hm calls w'.
  assert (Hkept : membership_at (World.db w') i j = Some m).
  { unfold membership_at, w' in *. now rewrite after_all_clubs_as_shipped. }
  split; [exact Hkept|].
  intros Hrejected. rewrite Hkept. simpl. rewrite Hrejected.
  split; [reflexivity|discriminate].
Qed.

End Facts.

(** * The module as shipped, on the example store

    From here on the operations run as the module ships them, with
    [ObjectId] unbound, on the runtime and the store defined above. *)

#[local] Existing Instance example_runtime.
#[local] Existing Instance as_shipped.
#[local] Existing Instance example_bcrypt.
#[local] Existing Instance example_regex.

(** C1: [_can_approve_membership] is to return true for an actor whose
    global role is faculty or admin, true for an active officer of the club
    and false for an actor without membership.  As shipped it returns
    nothing: its first statement calls [ObjectId], the name is unbound and
    the method has no [try], so it raises [NameError] for every club, every
    actor and every store -- for the faculty member, the president and the
    newcomer of the example store alike. *)
Theorem can_approve_membership_raises_NameError :
  (forall (oid : Type) (RT : Runtime oid) (club : Club.t oid) user_id w,
     _can_approve_membership (NS := as_shipped) club user_id w
     = (Raise (NameError "ObjectId"), w))
  /\ _can_approve_membership (NS := as_shipped) chess_club faculty_id example_world
     = (Raise (NameError "ObjectId"), example_world)
  /\ _can_approve_membership (NS := as_shipped) chess_club president_id example_world
     = (Raise (NameError "ObjectId"), example_world)
  /\ _can_approve_membership (NS := as_shipped) chess_club newcomer_id example_world
     = (Raise (NameError "ObjectId"), example_world).
Proof.
  split; [intros; apply _can_approve_membership_unbound|].
  split; [apply _can_approve_membership_unbound|].
  split; apply _can_approve_membership_unbound.
Qed.

(** C7: [_can_create_event] is to return true for faculty and admins and
    for every active member of the club, and false for a member who is
    pending.  As shipped it raises [NameError] at its first statement for
    every club, every actor and every store: for the faculty member, for a
    student whose membership is active and for one whose membership is
    pending. *)
Theorem can_create_event_raises_NameError :
  (forall (oid : Type) (RT : Runtime oid) (club : Club.t oid) user_id w,
     _can_create_event (NS := as_shipped) club user_id w
     = (Raise (NameError "ObjectId"), w))
  /\ _can_create_event (NS := as_shipped) chess_club faculty_id example_world
     = (Raise (NameError "ObjectId"), example_world)
  /\ _can_create_event (NS := as_shipped)
       (club_of (Membership.mk newcomer_id "member" "active" 4))
       newcomer_id example_world
     = (Raise (NameError "ObjectId"), example_world)
  /\ _can_create_event (NS := as_shipped)
       (club_of (Membership.mk newcomer_id "member" "pending" 4))
       newcomer_id example_world
     = (Raise (NameError "ObjectId"), example_world).
Proof.
  split; [intros; apply _can_create_event_unbound|].
  split; [apply _can_create_event_unbound|].
  split; apply _can_create_event_unbound.
Qed.

(** C2: [approve_event] is to refuse an approver who is not faculty or
    admin with an authorization error and, for a faculty member or admin,
    to store the event as approved with the approver, the notes and the
    approved budget.  As shipped it does neither: for every event, approver
    and store it returns "Failed to approve event" with the message of the
    [NameError] and writes nothing.  In the example store the faculty
    member approves the tournament with notes and a budget of 300: the
    tournament stays pending, without approver, notes or approved budget;
    and the president, a student, gets the same error, not "Unauthorized to
    approve events". *)
Theorem approve_event_fails_as_shipped :
  (forall (oid : Type) (RT : Runtime oid) self event_id approver_data approver_id
          now (w : World.t oid),
     approve_event (NS := as_shipped) self event_id approver_data approver_id now w
     = (Return (false,
                ErrorDict "Failed to approve event: name 'ObjectId' is not defined"),
        w))
  /\ (let out := approve_event (NS := as_shipped) self_up tournament_id approval
                   faculty_id 9 example_world in
      fst out
      = Return (false,
                ErrorDict "Failed to approve event: name 'ObjectId' is not defined")
      /\ find_one (event_by_id tournament_id) (Db.events (World.db (snd out)))
         = Some tournament
      /\ Event.status tournament = "pending"
      /\ Event.approvedBy tournament = None
      /\ Event.approvalNotes tournament = None
      /\ Budget.approved (Event.budget tournament) = 0)
  /\ approve_event (NS := as_shipped) self_up tournament_id approval president_id 9
       example_world
     = (Return (false,
                ErrorDict "Failed to approve event: name 'ObjectId' is not defined"),
        example_world).
Proof.
  split; [intros; apply approve_event_unbound|].
  split; [|apply approve_event_unbound].
  cbv zeta. rewrite approve_event_unbound. repeat split.
Qed.

(** C4: [register_for_event] is to refuse a second registration of a user
    with a conflict error, to refuse a registration for a full event with
    "Event is full", and otherwise to append one registration.  As shipped
    it returns "Failed to register for event" with the message of the
    [NameError] for every event, user and store, and writes nothing.  In
    the example store the tournament has one place: the newcomer's
    registration fails and the count stays 0; and once the place is taken
    ([full_world]), another student and the newcomer both get that same
    error, not "Event is full" and not "Already registered for this
    event". *)
Theorem register_for_event_fails_as_shipped :
  (forall (oid : Type) (RT : Runtime oid) self event_id user_id now (w : World.t oid),
     register_for_event (NS := as_shipped) self event_id user_id now w
     = (Return (false,
                ErrorDict
                  "Failed to register for event: name 'ObjectId' is not defined"),
        w))
  /\ (let out := register_for_event (NS := as_shipped) self_up tournament_id
                   newcomer_id 9 example_world in
      Event.maxParticipants tournament = 1
      /\ registration_count tournament = 0
      /\ fst out
         = Return (false,
                   ErrorDict
                     "Failed to register for event: name 'ObjectId' is not defined")
      /\ option_map registration_count
           (find_one (event_by_id tournament_id) (Db.events (World.db (snd out))))
         = Some 0)
  /\ register_for_event (NS := as_shipped) self_up tournament_id other_id 10 full_world
     = (Return (false,
                ErrorDict
                  "Failed to register for event: name 'ObjectId' is not defined"),
        full_world)
  /\ register_for_event (NS := as_shipped) self_up tournament_id newcomer_id 10
       full_world
     = (Return (false,
                ErrorDict
                  "Failed to register for event: name 'ObjectId' is not defined"),
        full_world).
Proof.
  split; [intros; apply register_for_event_unbound|].
  split; [|split; apply register_for_event_unbound].
  cbv zeta. rewrite register_for_event_unbound. repeat split.
Qed.

(** C10: [register_for_event] has no branch on the status of the event, and
    is to register a user for an event in any status.  As shipped the call
    fails before it reads the event: with the tournament of the example
    store in each of the five statuses, the newcomer, who is not registered
    and for whom there is a place, gets "Failed to register for event" with
    the message of the [NameError], and the store is as before. *)
Theorem register_for_event_fails_in_every_status :
  forall s : EventStatus.t,
    let w := with_event_status tournament_id (EventStatus.value s) example_world in
    option_map Event.status
      (find_one (event_by_id tournament_id) (Db.events (World.db w)))
    = Some (EventStatus.value s)
    /\ register_for_event (NS := as_shipped) self_up tournament_id newcomer_id 9 w
       = (Return (false,
                  ErrorDict
                    "Failed to register for event: name 'ObjectId' is not defined"),
          w).
Proof.
  intros s w. split; [|apply register_for_event_unbound].
  destruct s; reflexivity.
Qed.

(** C5: [join_club] is to store a pending membership for a user who has
    none in the club, and to refuse a second join with a conflict error,
    leaving one entry for the user.  As shipped it returns "Failed to join
    club" with the message of the [NameError] for every club, user and
    store, and writes nothing.  In the example store the newcomer joins the
    chess club twice: both calls fail with that error, and the member list
    of the club holds no entry for the newcomer. *)
Theorem join_club_fails_as_shipped :
  (forall (oid : Type) (RT : Runtime oid) self club_id user_id now (w : World.t oid),
     join_club (NS := as_shipped) self club_id user_id now w
     = (Return (false,
                ErrorDict "Failed to join club: name 'ObjectId' is not defined"), w))
  /\ (let first := join_club (NS := as_shipped) self_up chess_id newcomer_id 5
                     example_world in
      let second := join_club (NS := as_shipped) self_up chess_id newcomer_id 6
                      (snd first) in
      fst first
      = Return (false,
                ErrorDict "Failed to join club: name 'ObjectId' is not defined")
      /\ fst second
         = Return (false,
                   ErrorDict "Failed to join club: name 'ObjectId' is not defined")
      /\ option_map (membership_count newcomer_id)
           (find_one (club_by_id chess_id) (Db.clubs (World.db (snd second))))
         = Some 0%nat).
Proof.
  split; [intros; apply join_club_unbound|].
  cbv zeta. rewrite !join_club_unbound. repeat split.
Qed.

(** C6: [approve_membership] by an authorized actor is to answer "Member
    not found" for a user without membership and to set a pending
    membership to active.  As shipped it returns "Failed to approve
    membership" with the message of the [NameError] for every club, member,
    approver and store, and writes nothing.  In the example store the
    faculty member approves the applicant: the call fails and the
    membership of the applicant is pending still; for the newcomer, who has
    no membership, the answer is the same error, not "Member not found". *)
Theorem approve_membership_fails_as_shipped :
  (forall (oid : Type) (RT : Runtime oid) self club_id member_id approver_id
          (w : World.t oid),
     approve_membership (NS := as_shipped) self club_id member_id approver_id w
     = (Return (false,
                ErrorDict
                  "Failed to approve membership: name 'ObjectId' is not defined"),
        w))
  /\ (let out := approve_membership (NS := as_shipped) self_up chess_id applicant_id
                   faculty_id example_world in
      fst out
      = Return (false,
                ErrorDict
                  "Failed to approve membership: name 'ObjectId' is not defined")
      /\ membership_at (World.db (snd out)) 0 1 = Some applicant_membership
      /\ Membership.status applicant_membership = "pending")
  /\ approve_membership (NS := as_shipped) self_up chess_id newcomer_id faculty_id
       example_world
     = (Return (false,
                ErrorDict
                  "Failed to approve membership: name 'ObjectId' is not defined"),
        example_world).
Proof.
  split; [intros; apply approve_membership_unbound|].
  split; [|apply approve_membership_unbound].
  cbv zeta. rewrite approve_membership_unbound. repeat split.
Qed.


(** The chess club holds a rejected membership.  After the faculty member
    and the president have each approved it, its user has asked to join
    again and a student has registered, it is rejected still. *)
Lemma rejected_membership_stays_rejected_witness :
  let w' := after_all self_up
              [Approve_membership chess_id rejected_id faculty_id;
               Join_club chess_id rejected_id 5;
               Register_user new_student "salt1" new_id 11;
               Approve_membership chess_id rejected_id president_id]
              example_world in
  membership_at (World.db w') 0 2 = Some rejected_membership
  /\ option_map Membership.status (membership_at (World.db w') 0 2)
     = Some "rejected".
Proof.
  intros w'.
  destruct (@rejected_membership_stays_rejected string example_runtime
              example_bcrypt example_regex self_up example_world 0%nat 2%nat
              rejected_membership eq_refl
              [Approve_membership chess_id rejected_id faculty_id;
               Join_club chess_id rejected_id 5;
               Register_user new_student "salt1" new_id 11;
               Approve_membership chess_id rejected_id president_id])
    as (Hkept & Hrejected).
  split; [exact Hkept|]. now apply Hrejected.
Defined.

(** The example store has unique emails and student ids; it still has after
    the same student is registered twice, and the second call is refused
    with "Email already exists". *)
Lemma register_user_keeps_identities_unique_witness :
  unique_identities (World.db example_world)
  /\ unique_identities
       (World.db (register_users self_up
                    [(new_student, "salt1", new_id, 11);
                     (new_student, "salt2", new_id, 12)]
                    example_world))
  /\ fst (register_user self_up new_student "salt2" new_id 12
            (snd (register_user self_up new_student "salt1" new_id 11 example_world)))
       = Return (false, ErrorDict "Email already exists").
Proof.
  assert (Hu : unique_identities (World.db example_world)).
  { split; vm_compute; repeat constructor; simpl; intuition discriminate. }
  split; [exact Hu|].
  destruct (@register_user_keeps_identities_unique string example_runtime self_up
              example_world Hu) as (Hall & Hone).
  split; [apply Hall|].
  destruct (Hone new_student "salt1" new_id 11) as (Hu1 & _).
  destruct (@register_user_keeps_identities_unique string example_runtime self_up
              (snd (register_user self_up new_student "salt1" new_id 11 example_world))
              Hu1) as (_ & Hnext).
  destruct (Hnext new_student "salt2" new_id 12) as (_ & Hemail & _).
  destruct (Hemail "farah@kmit.in" eq_refl) as (_ & _ & Hmsg).
  - vm_compute. intuition.
  - apply Hmsg; discriminate.
Defined.

(** * The further properties on the example store *)

Ltac canonical_id :=
  let uo := fresh "uo" in
  let H := fresh in
  intros uo H; vm_compute in H; injection H as <-; reflexivity.


(** The names of the clubs of the example store are unique, and still are
    after the faculty member has called [create_club] for the Go club. *)
Lemma club_names_stay_unique_witness :
  NoDup (club_names
           (World.db (snd (create_club self_up go_club faculty_id new_id 7
                             example_world)))).
Proof.
  destruct (club_names_stay_unique self_up example_world) as (Hcreate & _).
  apply (Hcreate go_club faculty_id new_id 7).
  repeat constructor. intros [].
Defined.

Lemma example_capacity_respected : capacity_respected (World.db example_world).
Proof.
  repeat constructor. unfold within_capacity, registration_count. simpl. lia.
Qed.

(** The tournament holds no more registrations than its capacity after the
    newcomer and then another student have called [register_for_event]. *)
Lemma capacity_stays_respected_witness :
  capacity_respected
    (World.db (snd (register_for_event self_up tournament_id other_id 10
                      (snd (register_for_event self_up tournament_id newcomer_id 9
                              example_world))))).
Proof.
  destruct (capacity_stays_respected self_up example_world
              example_capacity_respected) as (Hfirst & _).
  destruct (capacity_stays_respected self_up _ (Hfirst tournament_id newcomer_id 9))
    as (Hsecond & _).
  apply Hsecond.
Defined.

(** No event holds two registrations of one user after the newcomer has
    called [register_for_event] for the tournament. *)
Lemma registrations_stay_unique_witness :
  registrations_unique
    (World.db (snd (register_for_event self_up tournament_id newcomer_id 9
                      example_world))).
Proof.
  assert (Hu : registrations_unique (World.db example_world))
    by (repeat constructor).
  destruct (registrations_stay_unique self_up example_world Hu) as (Hregister & _).
  apply Hregister. canonical_id.
Defined.

(** No club holds two memberships of one user after the newcomer has called
    [join_club] for the chess club. *)
Lemma memberships_stay_unique_witness :
  memberships_unique
    (World.db (snd (join_club self_up chess_id newcomer_id 5 example_world))).
Proof.
  assert (Hu : memberships_unique (World.db example_world)).
  { repeat constructor; simpl; intuition discriminate. }
  destruct (memberships_stay_unique self_up example_world Hu) as (Hjoin & _).
  apply Hjoin. canonical_id.
Defined.

(** In a store with plain members only, the members are plain still after
    the calls of [join_club] for the newcomer and of [approve_membership]
    by the faculty member. *)
Lemma no_operation_makes_an_officer_witness :
  plain_members
    (World.db (snd (approve_membership self_up chess_id newcomer_id faculty_id
                      (snd (join_club self_up chess_id newcomer_id 5 plain_world))))).
Proof.
  assert (Hplain : plain_members (World.db plain_world)) by (repeat constructor).
  destruct (no_operation_makes_an_officer self_up plain_world Hplain)
    as (Hjoin & _).
  destruct (no_operation_makes_an_officer self_up _
              (Hjoin chess_id newcomer_id 5)) as (_ & Happrove & _).
  apply Happrove.
Defined.


(** A new student registers and then logs in with the same email and
    password. *)
Lemma register_then_login_witness :
  exists w' token user,
    register_user self_up new_student "salt1" new_id 11 example_world
    = (Return (true, UserDict "User registered successfully" token user), w')
    /\ exists token',
         login_user self_up (Credentials.mk (Some "farah@kmit.in") (Some "pw")) 20 w'
         = (Return (true, UserDict "Login successful" token' user), w').
Proof.
  set (out := register_user self_up new_student "salt1" new_id 11 example_world).
  assert (Hout : out = (Return (true,
                          match fst out with
                          | Return (_, payload) => payload
                          | Raise _ => ErrorDict ""
                          end), snd out)) by (vm_compute; reflexivity).
  destruct (@register_then_login string example_runtime example_bcrypt self_up
              new_student "salt1" new_id 11 _ example_world _
              "farah@kmit.in" "pw" Hout eq_refl eq_refl)
    as (user & token & hashed & Hhashed & Hpayload & Hlogin & _).
  vm_compute in Hhashed. injection Hhashed as <-.
  exists (snd out), token, user. split.
  - rewrite <- Hpayload. exact Hout.
  - apply Hlogin. reflexivity.
Defined.

Lemma example_refs_valid : club_refs_valid (World.db example_world).
Proof. repeat constructor. Qed.

(** The references of the example store hold object ids, and still do
    after the newcomer has called [join_club] for the chess club. *)
Lemma club_refs_stay_valid_witness :
  club_refs_valid
    (World.db (snd (join_club self_up chess_id newcomer_id 5 example_world))).
Proof.
  destruct (club_refs_stay_valid self_up example_world example_refs_valid)
    as (Hjoin & _).
  apply Hjoin.
Defined.

(** A workshop without date lacks a required field; the workshop with all
    its fields fails at the unbound name, for the president as for anyone. *)
Lemma create_event_as_shipped_witness :
  create_event self_up workshop_without_date president_id workshop_id 12 example_world
  = (Return (false, ErrorDict "Missing required fields"), example_world)
  /\ create_event self_up workshop president_id workshop_id 12 example_world
     = (Return (false,
                ErrorDict "Failed to create event: name 'ObjectId' is not defined"),
        example_world).
Proof.
  split.
  - destruct (@create_event_as_shipped string example_runtime as_shipped self_up
                workshop_without_date president_id workshop_id 12 example_world)
      as (Hmissing & _).
    apply Hmissing. simpl. tauto.
  - destruct (@create_event_as_shipped string example_runtime as_shipped self_up
                workshop president_id workshop_id 12 example_world)
      as (_ & Hfields & _).
    apply Hfields; discriminate.
Defined.

(** The chess club is listed under its category, and the pattern "(" is
    reported. *)
Lemma get_clubs_spec_witness :
  get_clubs self_up (Some (ClubFilters.mk (Some "games") None)) example_world
    = (Return (true, Payload [club_view chess_club]), example_world)
  /\ get_clubs self_up (Some (ClubFilters.mk None (Some "("))) example_world
     = (Return (false,
                ErrorReply "Failed to get clubs: Regular expression is invalid: missing )"),
        example_world).
Proof.
  destruct (@get_clubs_spec string example_runtime example_regex self_up
              example_world) as (_ & _ & Hcategory & _ & Hbad & _).
  split.
  - apply (Hcategory "games" None); [discriminate|discriminate|now left].
  - apply (Hbad None "("); [discriminate|reflexivity].
Defined.

(** The tournament is listed among the pending events; with the chess club
    as a filter the call fails at the unbound name. *)
Lemma get_events_spec_witness :
  get_events self_up (Some (EventFilters.mk (Some "pending") None None)) 20
    example_world
  = (Return (true, Payload [event_view tournament]), example_world)
  /\ get_events self_up (Some (EventFilters.mk None (Some chess_id) None)) 20
       example_world
     = (Return (false,
                ErrorReply "Failed to get events: name 'ObjectId' is not defined"),
        example_world).
Proof.
  destruct (@get_events_spec string example_runtime as_shipped self_up 20
              example_world) as (_ & Hstatus & _ & Hclub).
  split.
  - apply (Hstatus "pending" None None); [discriminate|now left|discriminate].
  - apply (Hclub None chess_id None). discriminate.
Defined.

